(** * Order routes of the storefront API: cart, order and stock consistency

    A shallow embedding of the Express router for orders (place, search,
    list, fetch, cancel, item status) over an explicit model of the three
    MongoDB collections it touches ([Order], [Cart], [Product]).  Every route handler is an
    [async] function whose body is one [try { ... } catch] block; the
    embedding runs the body in a state-and-exception monad over the
    database and turns any exception into the reply of
    [sendErrorResponse].  Writes that happened before the exception stay
    in the database: there is no transaction in the source. *)

From Stdlib Require Import List String Ascii Bool ZArith QArith Lia.
From Stdlib Require Import Qround Permutation Sorted.
Import ListNotations.
Local Open Scope Z_scope.

(** ** Identifiers *)

(** An [ObjectId] is represented by the text its [toString()] gives
    (the canonical hexadecimal form). *)
Definition ObjectId := string.

Definition id_eqb (a b : ObjectId) : bool := String.eqb a b.

Lemma id_eqb_refl (a : ObjectId) : id_eqb a a = true.
Proof. apply String.eqb_refl. Qed.

Lemma id_eqb_eq (a b : ObjectId) : id_eqb a b = true <-> a = b.
Proof. apply String.eqb_eq. Qed.

Lemma id_eqb_neq (a b : ObjectId) : id_eqb a b = false <-> a <> b.
Proof. apply String.eqb_neq. Qed.

(** ** Constants *)

(** Modelled from the spec: the [constants] module ([ROLES],
    [CART_ITEM_STATUS]) is not among the sources; the spec names the roles
    Admin, Merchant and Customer and the line status Cancelled. *)
Inductive Role : Type := Admin | Merchant | Customer.

Definition role_eqb (a b : Role) : bool :=
  match a, b with
  | Admin, Admin | Merchant, Merchant | Customer, Customer => true
  | _, _ => false
  end.

Module CART_ITEM_STATUS.
(** Modelled from the spec: the value of [CART_ITEM_STATUS.Cancelled]. *)
Definition Cancelled : string := "Cancelled"%string.
End CART_ITEM_STATUS.

(** ** Documents *)

Record Product : Type := mkProduct {
  p_id : ObjectId;
  p_taxable : bool;
  p_price : Q;
  p_quantity : Z
}.

(** One element of [cart.products]. *)
Record CartItem : Type := mkItem {
  i_id : ObjectId;
  i_product : ObjectId;
  i_quantity : Z;
  i_status : string
}.

Record Cart : Type := mkCart {
  c_id : ObjectId;
  c_products : list CartItem
}.

Record Order : Type := mkOrder {
  o_id : ObjectId;
  o_cart : ObjectId;
  o_user : ObjectId;
  o_total : Q;
  o_created : Z
}.

(** [req.user], as left on the request by the [auth] middleware. *)
Record User : Type := mkUser {
  u_id : ObjectId;
  u_role : Role
}.

(** The three collections, each in its natural (insertion) order. *)
Record Store : Type := mkStore {
  products : list Product;
  carts : list Cart;
  orders : list Order
}.

(** ** Generic collection helpers *)

Section Collections.
Context {A : Type}.

(** [updateOne]: the first document matching the filter is rewritten. *)
Fixpoint update_first (f : A -> bool) (g : A -> A) (l : list A) : list A :=
  match l with
  | [] => []
  | x :: t => if f x then g x :: t else x :: update_first f g t
  end.

(** [deleteOne]: the first document matching the filter is removed. *)
Fixpoint delete_first (f : A -> bool) (l : list A) : list A :=
  match l with
  | [] => []
  | x :: t => if f x then t else x :: delete_first f t
  end.
End Collections.

(** ** Collection operations used by the routes *)

Definition has_item (itemId : ObjectId) (c : Cart) : bool :=
  existsb (fun p => id_eqb (i_id p) itemId) (c_products c).

Definition item_cancelled (item : CartItem) : bool :=
  String.eqb (i_status item) CART_ITEM_STATUS.Cancelled.

(** [Order.findOne({ _id })] *)
Definition Order_findOne (db : Store) (oid : ObjectId) : option Order :=
  find (fun o => id_eqb (o_id o) oid) (orders db).

(** [Order.findOne({ _id, user })] *)
Definition Order_findOne_user (db : Store) (oid user : ObjectId) : option Order :=
  find (fun o => id_eqb (o_id o) oid && id_eqb (o_user o) user) (orders db).

(** [Cart.findOne({ _id })] *)
Definition Cart_findOne (db : Store) (cid : ObjectId) : option Cart :=
  find (fun c => id_eqb (c_id c) cid) (carts db).

(** [Cart.findOne({ 'products._id': itemId })] *)
Definition Cart_findOne_item (db : Store) (itemId : ObjectId) : option Cart :=
  find (has_item itemId) (carts db).

(** [Product.findOne({ _id })], used by [populate]. *)
Definition Product_findOne (db : Store) (pid : ObjectId) : option Product :=
  find (fun p => id_eqb (p_id p) pid) (products db).

Definition set_status (status : string) (item : CartItem) : CartItem :=
  mkItem (i_id item) (i_product item) (i_quantity item) status.

(** The positional update ['products.$.status']: the first element of
    the array that matched the filter gets the new status. *)
Definition set_item_status (itemId : ObjectId) (status : string) (c : Cart) : Cart :=
  mkCart (c_id c)
    (update_first (fun p => id_eqb (i_id p) itemId) (set_status status) (c_products c)).

(** [Cart.updateOne({ 'products._id': itemId }, { 'products.$.status': status })] *)
Definition Cart_updateOne_status (itemId : ObjectId) (status : string) (db : Store) : Store :=
  mkStore (products db)
    (update_first (has_item itemId) (set_item_status itemId status) (carts db))
    (orders db).

Definition inc_quantity (n : Z) (p : Product) : Product :=
  mkProduct (p_id p) (p_taxable p) (p_price p) (p_quantity p + n).

Definition inc_products (pid : ObjectId) (n : Z) (ps : list Product) : list Product :=
  update_first (fun p => id_eqb (p_id p) pid) (inc_quantity n) ps.

(** [Product.updateOne({ _id: pid }, { $inc: { quantity: n } })] *)
Definition Product_updateOne_inc (pid : ObjectId) (n : Z) (db : Store) : Store :=
  mkStore (inc_products pid n (products db)) (carts db) (orders db).

(** [Order.deleteOne({ _id })] *)
Definition Order_deleteOne (oid : ObjectId) (db : Store) : Store :=
  mkStore (products db) (carts db)
    (delete_first (fun o => id_eqb (o_id o) oid) (orders db)).

(** [Cart.deleteOne({ _id })] *)
Definition Cart_deleteOne (cid : ObjectId) (db : Store) : Store :=
  mkStore (products db)
    (delete_first (fun c => id_eqb (c_id c) cid) (carts db))
    (orders db).

(** [Order.create(doc)] appends the new document. *)
Definition Order_create (o : Order) (db : Store) : Store :=
  mkStore (products db) (carts db) (orders db ++ [o]).

(** One entry of the array given to [Product.bulkWrite]: an [updateOne]
    with filter [{ _id }] and update [{ $inc: { quantity } }]. *)
Record BulkUpdate : Type := mkBulk {
  bulk_filter_id : ObjectId;
  bulk_inc_quantity : Z
}.

(** [Product.bulkWrite(ops)]: the updates are applied in order. *)
Definition Product_bulkWrite (ops : list BulkUpdate) (db : Store) : Store :=
  fold_left
    (fun d op => Product_updateOne_inc (bulk_filter_id op) (bulk_inc_quantity op) d)
    ops db.

(** ** Running configuration

    Besides the database a configuration holds the writes that a handler
    has started without awaiting them.  Such a write has been handed to
    the driver but nothing in the handler waits for it: it may take
    effect at any later point, or never if the process stops first.  A
    handler run keeps it in [inflight], which is the execution where it
    has not completed when the handler replies; [completes] and [settle]
    apply it. *)

Inductive PendingWrite : Type :=
| PendingBulkWrite (ops : list BulkUpdate).

Record Config : Type := mkConfig {
  db : Store;
  inflight : list PendingWrite
}.

Definition apply_write (w : PendingWrite) (d : Store) : Store :=
  match w with
  | PendingBulkWrite ops => Product_bulkWrite ops d
  end.

(** One started write completes. *)
Inductive completes : Config -> Config -> Prop :=
| completes_write (d : Store) (before after : list PendingWrite) (w : PendingWrite) :
    completes (mkConfig d (before ++ w :: after))
              (mkConfig (apply_write w d) (before ++ after)).

(** The database once every started write has completed, in the order
    in which the writes were started. *)
Definition settle (c : Config) : Store :=
  fold_left (fun d w => apply_write w d) (inflight c) (db c).

(** A quiescent configuration: nothing is in flight. *)
Definition at_rest (d : Store) : Config := mkConfig d [].

(** ** Exceptions, replies and the handler monad *)

Inductive Exn : Type :=
| ReferenceError (identifier : string)   (* an identifier that is not bound *)
| TypeError (property : string)          (* property read on null or undefined *)
| CastError (value : string)             (* Mongoose could not cast a query value *)
| Rejected (service : string).           (* an awaited promise was rejected *)

(** A cart line after [populate('products.product')]: the product
    reference is replaced by the product document, or by [null] when no
    such product exists. *)
Record PopulatedItem : Type := mkPopulated {
  pi_item : CartItem;
  pi_product : option Product
}.

(** The plain objects the routes build from an order document.  The
    routes do not all set the same fields; a field a route leaves out is
    [None]. *)
Record OrderView : Type := mkView {
  v_id : ObjectId;
  v_total : Q;
  v_created : Z;
  v_user : option ObjectId;
  v_totalTax : option Q;
  v_products : list PopulatedItem;
  v_cartId : option ObjectId
}.

Inductive Body : Type :=
| Body_error (error : string)
| Body_placed (message : string) (order_id : ObjectId)   (* success: true *)
| Body_orders (found : list OrderView)
| Body_order (order : OrderView)
| Body_message (message : string)
| Body_success                                           (* { success: true } *)
| Body_item (orderCancelled : bool) (message : string).  (* success: true *)

Record Response : Type := mkResponse {
  status : Z;
  body : Body
}.

(** [sendErrorResponse] *)
Definition sendErrorResponse (message : string) : Response :=
  mkResponse 400
    (Body_error ("Your request could not be processed. " ++ message)%string).

Definition M (A : Type) : Type := Config -> (A + Exn) * Config.

Definition ret {A : Type} (a : A) : M A := fun c => (inl a, c).

Definition bind {A B : Type} (m : M A) (k : A -> M B) : M B :=
  fun c =>
    match m c with
    | (inl a, c') => k a c'
    | (inr e, c') => (inr e, c')
    end.

Definition throw {A : Type} (e : Exn) : M A := fun c => (inr e, c).

Notation "x <- m ;; k" := (bind m (fun x => k))
  (at level 61, m at next level, right associativity).
Notation "m ;;; k" := (bind m (fun _ => k))
  (at level 61, right associativity).

(** [await] of a read. *)
Definition query {A : Type} (f : Store -> A) : M A :=
  fun c => (inl (f (db c)), c).

(** [await] of a write: the handler resumes once the write is applied. *)
Definition await_write (f : Store -> Store) : M unit :=
  fun c => (inl tt, mkConfig (f (db c)) (inflight c)).

(** A write that is started and not awaited. *)
Definition start_write (w : PendingWrite) : M unit :=
  fun c => (inl tt, mkConfig (db c) (inflight c ++ [w])).

(** Reading a property of a value that may be [null] or [undefined]. *)
Definition deref {A : Type} (property : string) (o : option A) : M A :=
  match o with
  | Some a => ret a
  | None => throw (TypeError property)
  end.

(** [try { body } catch (error) { sendErrorResponse(res, 'Please try again.') }] *)
Definition try_catch (m : M Response) (c : Config) : Response * Config :=
  match m c with
  | (inl r, c') => (r, c')
  | (inr _, c') => (sendErrorResponse "Please try again.", c')
  end.

(** The bindings of the module: lines 1-12, 15 and 313 of the file.
    Identifiers are case sensitive; [Mongoose] is bound, [mongoose] is
    not, and Node has no global of that name. *)
Definition module_bindings : list string :=
  ["express"; "router"; "Mongoose"; "Order"; "Cart"; "Product"; "auth";
   "mailgun"; "store"; "ROLES"; "CART_ITEM_STATUS"; "sendErrorResponse";
   "increaseQuantity"]%string.

(** Evaluating a free identifier of a handler body. *)
Definition resolve (identifier : string) : M unit :=
  if existsb (String.eqb identifier) module_bindings
  then ret tt
  else throw (ReferenceError identifier).

(** ** Numbers *)

(** The nearest integer, ties away from zero. *)
Definition round_half_away (x : Q) : Z :=
  Z.sgn (Qnum x) * ((2 * Z.abs (Qnum x) + Zpos (Qden x)) / (2 * Zpos (Qden x))).

(** [Number(x.toFixed(2))], on rationals. *)
Definition toFixed2 (x : Q) : Q := Qmake (round_half_away (x * 100)) 100.

(** ** Populating and sorting *)

Definition populate_item (d : Store) (item : CartItem) : PopulatedItem :=
  mkPopulated item (Product_findOne d (i_product item)).

(** [populate({ path: 'cart', populate: { path: 'products.product' } })]:
    the order together with its cart document, [None] when the cart is
    gone. *)
Definition populate_cart (d : Store) (o : Order) : Order * option Cart :=
  (o, Cart_findOne d (o_cart o)).

Definition populated_products (d : Store) (c : Cart) : list PopulatedItem :=
  map (populate_item d) (c_products c).

Fixpoint insert_by_created (o : OrderView) (l : list OrderView) : list OrderView :=
  match l with
  | [] => [o]
  | x :: t =>
      if v_created x <? v_created o then o :: l else x :: insert_by_created o t
  end.

(** [orders.sort((a, b) => b.created - a.created)]: newest first. *)
Definition sort_by_created_desc (l : list OrderView) : list OrderView :=
  fold_right insert_by_created [] l.

(** ** The routes *)

(** Body of [POST /add]. *)
Record AddBody : Type := mkAddBody {
  add_cartId : string;
  add_total : Q
}.

(** Parameter and body of [PUT /status/item/:itemId].  [None] in
    [req_status] is a body without a [status] field. *)
Record ItemStatusRequest : Type := mkItemStatus {
  req_itemId : string;
  req_orderId : string;
  req_cartId : string;
  req_status : option string
}.

(** [value || fallback] on a string that may be missing: the empty
    string is falsy like [undefined]. *)
Definition or_else (value : option string) (fallback : string) : string :=
  match value with
  | Some s => if String.eqb s "" then fallback else s
  | None => fallback
  end.

(** [increaseQuantity]: one [$inc] per cart line, sent as a bulk write
    whose promise is dropped (no [await], no [return]). *)
Definition increaseQuantity (lines : list CartItem) : M unit :=
  let bulkOptions :=
    map (fun item => mkBulk (i_product item) (i_quantity item)) lines in
  start_write (PendingBulkWrite bulkOptions).

Section Routes.

(** Mongoose's cast of a request string to an [ObjectId]; [None] when
    the cast raises [CastError]. *)
Variable castObjectId : string -> option ObjectId.

(** [mongoose.Types.ObjectId.isValid] *)
Variable ObjectId_isValid : string -> bool.

(** [store.calculateTaxAmount] of [utils/store], which is not among
    the sources. *)
Variable calculateTaxAmount : OrderView -> OrderView.

(** [mailgun.sendEmail] of [services/mailgun], which is not among the
    sources: [true] when the awaited promise resolves, [false] when it
    is rejected. *)
Variable mailgun_sendEmail : option string -> string -> OrderView -> bool.

Definition cast (value : string) : M ObjectId :=
  match castObjectId value with
  | Some oid => ret oid
  | None => throw (CastError value)
  end.

(** [router.post('/add')], lines 21-62.  [newId] and [now] are the
    [_id] and the [created] date Mongoose gives the new document. *)
Definition route_add (user : User) (newId : ObjectId) (now : Z) (body : AddBody)
  : Config -> Response * Config :=
  try_catch (
    cartRef <- cast (add_cartId body) ;;
    let order := mkOrder newId cartRef (u_id user) (add_total body) now in
    await_write (Order_create order) ;;;
    populated <- query (fun d => populate_cart d order) ;;
    cartDoc <- deref "products" (snd populated) ;;
    lines <- query (fun d => populated_products d cartDoc) ;;
    let newOrder :=
      mkView (o_id order) (o_total order) (o_created order)
             (Some (o_user order)) None lines None in
    (* [order.user] is an ObjectId, so [order.user.email] is undefined *)
    (if mailgun_sendEmail None "order-confirmation" newOrder
     then ret tt else throw (Rejected "mailgun")) ;;;
    ret (mkResponse 200
           (Body_placed "Your order has been placed successfully!" (o_id order)))).

(** [router.get('/search')], lines 64-113.  The query chain of lines
    79-89 is read as the list of orders it is written to produce: the
    orders matching the query whose cart exists. *)
Definition route_search (user : User) (search : string)
  : Config -> Response * Config :=
  try_catch (
    resolve "mongoose" ;;;
    if negb (ObjectId_isValid search)
    then ret (mkResponse 200 (Body_orders []))
    else
      resolve "mongoose" ;;;
      oid <- cast search ;;
      ordersDoc <- query (fun d =>
        let matching :=
          filter (fun o =>
                    id_eqb (o_id o) oid
                    && (role_eqb (u_role user) Admin || id_eqb (o_user o) (u_id user)))
                 (orders d) in
        flat_map (fun o =>
                    match Cart_findOne d (o_cart o) with
                    | Some c => [(o, populated_products d c)]
                    | None => []
                    end) matching) ;;
      if (0 <? Z.of_nat (List.length ordersDoc))
      then
        let newOrders :=
          map (fun oc => mkView (o_id (fst oc)) (toFixed2 (o_total (fst oc)))
                                (o_created (fst oc)) None None (snd oc) None)
              ordersDoc in
        let found := map calculateTaxAmount newOrders in
        ret (mkResponse 200 (Body_orders (sort_by_created_desc found)))
      else ret (mkResponse 200 (Body_orders []))).

(** [router.get('/:orderId')], lines 182-234. *)
Definition route_get (user : User) (orderId : string)
  : Config -> Response * Config :=
  try_catch (
    oid <- cast orderId ;;
    orderDoc <-
      (if role_eqb (u_role user) Admin
       then query (fun d => option_map (populate_cart d) (Order_findOne d oid))
       else query (fun d => option_map (populate_cart d)
                                       (Order_findOne_user d oid (u_id user)))) ;;
    match orderDoc with
    | Some (o, Some cartDoc) =>
        lines <- query (fun d => populated_products d cartDoc) ;;
        let order :=
          mkView (o_id o) (o_total o) (o_created o) None (Some 0%Q)
                 lines (Some (c_id cartDoc)) in
        ret (mkResponse 200 (Body_order (calculateTaxAmount order)))
    | _ =>
        ret (mkResponse 404
               (Body_message ("Cannot find order with the id: " ++ orderId ++ ".")%string))
    end).

(** [router.delete('/cancel/:orderId')], lines 236-254.  [req.user] is
    set by [auth] and not read by the handler. *)
Definition route_cancel (user : User) (orderId : string)
  : Config -> Response * Config :=
  try_catch (
    oid <- cast orderId ;;
    found <- query (fun d => Order_findOne d oid) ;;
    order <- deref "cart" found ;;
    foundCart <- query (fun d => Cart_findOne d (o_cart order)) ;;
    cartDoc <- deref "products" foundCart ;;
    increaseQuantity (c_products cartDoc) ;;;
    await_write (Order_deleteOne oid) ;;;
    await_write (Cart_deleteOne (o_cart order)) ;;;
    ret (mkResponse 200 Body_success)).

(** [router.put('/status/item/:itemId')], lines 256-311. *)
Definition route_status_item (user : User) (req : ItemStatusRequest)
  : Config -> Response * Config :=
  try_catch (
    let itemId := req_itemId req in
    let status := or_else (req_status req) CART_ITEM_STATUS.Cancelled in
    iid <- cast itemId ;;
    found <- query (fun d => Cart_findOne_item d iid) ;;
    foundCart <- deref "products" found ;;
    (* [p._id == itemId] compares the id's text with the raw parameter *)
    let foundCartProduct :=
      find (fun p => String.eqb (i_id p) itemId) (c_products foundCart) in
    await_write (Cart_updateOne_status iid status) ;;;
    if String.eqb status CART_ITEM_STATUS.Cancelled
    then
      line <- deref "product" foundCartProduct ;;
      await_write (Product_updateOne_inc (i_product line) (i_quantity line)) ;;;
      cid <- cast (req_cartId req) ;;
      reread <- query (fun d => Cart_findOne d cid) ;;
      cart <- deref "products" reread ;;
      let items := filter item_cancelled (c_products cart) in
      if Nat.eqb (List.length (c_products cart)) (List.length items)
      then
        oid <- cast (req_orderId req) ;;
        await_write (Order_deleteOne oid) ;;;
        await_write (Cart_deleteOne cid) ;;;
        ret (mkResponse 200
               (Body_item true
                  ((if role_eqb (u_role user) Admin then "Order" else "Your order")
                     ++ " has been cancelled successfully")%string))
      else
        ret (mkResponse 200 (Body_item false "Item has been cancelled successfully!"))
    else
      ret (mkResponse 200 (Body_item false "Item status has been updated successfully!"))).

End Routes.

(** ** Sample data

    A cast for the 24-digit hexadecimal form of an identifier, and a
    small shop: one product, one cart of two lines, one order. *)

Module Sample.

Local Open Scope string_scope.

Definition is_hex_digit (a : ascii) : bool :=
  let n := nat_of_ascii a in
  ((48 <=? n) && (n <=? 57) || (97 <=? n) && (n <=? 102)
   || (65 <=? n) && (n <=? 70))%nat.

Definition lower (a : ascii) : ascii :=
  let n := nat_of_ascii a in
  if ((65 <=? n) && (n <=? 90))%nat then ascii_of_nat (n + 32) else a.

Fixpoint all_hex (s : string) : bool :=
  match s with
  | EmptyString => true
  | String a t => is_hex_digit a && all_hex t
  end.

Fixpoint lowercase (s : string) : string :=
  match s with
  | EmptyString => EmptyString
  | String a t => String (lower a) (lowercase t)
  end.

(** A string of 24 hexadecimal digits casts to the identifier whose
    text is the string in lower case; nothing else casts. *)
Definition hexObjectId (s : string) : option ObjectId :=
  if Nat.eqb (String.length s) 24 && all_hex s
  then Some (lowercase s) else None.

Definition isValid (s : string) : bool :=
  match hexObjectId s with Some _ => true | None => false end.

Definition noTax (o : OrderView) : OrderView := o.

Definition mailDelivered (_ : option string) (_ : string) (_ : OrderView) : bool := true.
Definition mailRejected (_ : option string) (_ : string) (_ : OrderView) : bool := false.

Definition productA : ObjectId := "aaaaaaaaaaaaaaaaaaaaaaaa".
Definition line1 : ObjectId := "111111111111111111111111".
Definition line2 : ObjectId := "222222222222222222222222".
Definition cart1 : ObjectId := "cccccccccccccccccccccccc".
Definition order1 : ObjectId := "dddddddddddddddddddddddd".
Definition order2 : ObjectId := "eeeeeeeeeeeeeeeeeeeeeeee".
Definition noSuchOrder : ObjectId := "ffffffffffffffffffffffff".

Definition alice : User := mkUser "a11ce0000000000000000000" Customer.
Definition bob : User := mkUser "b0b000000000000000000000" Customer.
Definition root : User := mkUser "ad0000000000000000000000" Admin.

Definition shop : Store :=
  mkStore
    [ mkProduct productA true 10 10 ]
    [ mkCart cart1
        [ mkItem line1 productA 2 "Not processed";
          mkItem line2 productA 3 "Not processed" ] ]
    [ mkOrder order1 cart1 (u_id alice) 50 1700000000 ].

Definition cancelLine (itemId : ObjectId) : ItemStatusRequest :=
  mkItemStatus itemId order1 cart1 None.

(** The same shop before the order is placed. *)
Definition checkout : Store := mkStore (products shop) (carts shop) [].

Definition theCart : Cart :=
  mkCart cart1
    [ mkItem line1 productA 2 "Not processed";
      mkItem line2 productA 3 "Not processed" ].

Definition theOrder : Order := mkOrder order1 cart1 (u_id alice) 50 1700000000.

(** The cart and the shop once the first line has been cancelled. *)
Definition cartAfterLine1 : Cart :=
  mkCart cart1
    [ mkItem line1 productA 2 "Cancelled";
      mkItem line2 productA 3 "Not processed" ].

Definition shopAfterLine1 : Store :=
  mkStore [ mkProduct productA true 10 12 ] [ cartAfterLine1 ] [ theOrder ].

End Sample.


(** * Stock *)

(** The sum of the available quantities of all products. *)
Definition total_stock (d : Store) : Z :=
  fold_right (fun p acc => p_quantity p + acc) 0 (products d).

(** The sum of the quantities of a list of cart lines. *)
Definition lines_quantity (lines : list CartItem) : Z :=
  fold_right (fun item acc => i_quantity item + acc) 0 lines.

(** The lines of a cart that are not cancelled, and those that are. *)
Definition active_lines (lines : list CartItem) : list CartItem :=
  filter (fun item => negb (item_cancelled item)) lines.

Definition cancelled_lines (lines : list CartItem) : list CartItem :=
  filter item_cancelled lines.

(** Every line refers to a product of the collection. *)
Definition products_exist (d : Store) (lines : list CartItem) : Prop :=
  forall item, In item lines -> Product_findOne d (i_product item) <> None.

(** * Replies *)

(** The object [GET /:orderId] builds before the tax computation. *)
Definition order_view (d : Store) (o : Order) (cartDoc : Cart) : OrderView :=
  mkView (o_id o) (o_total o) (o_created o) None (Some 0%Q)
         (populated_products d cartDoc) (Some (c_id cartDoc)).

Definition not_found (orderId : string) : Response :=
  mkResponse 404
    (Body_message ("Cannot find order with the id: " ++ orderId ++ ".")%string).

Definition generic_error : Response := sendErrorResponse "Please try again.".

Definition item_cancelled_reply : Response :=
  mkResponse 200 (Body_item false "Item has been cancelled successfully!").

Definition order_cancelled_reply (user : User) : Response :=
  mkResponse 200
    (Body_item true
       ((if role_eqb (u_role user) Admin then "Order" else "Your order")
          ++ " has been cancelled successfully")%string).

(** The [success] and [orderCancelled] flags of a reply. *)
Definition reports_success (r : Response) : bool :=
  match body r with
  | Body_placed _ _ | Body_success | Body_item _ _ => true
  | _ => false
  end.

Definition reports_orderCancelled (r : Response) : bool :=
  match body r with
  | Body_item flag _ => flag
  | _ => false
  end.

(** The bulk write [increaseQuantity] builds from the lines of a cart. *)
Definition restock_of (lines : list CartItem) : PendingWrite :=
  PendingBulkWrite (map (fun item => mkBulk (i_product item) (i_quantity item)) lines).

Ltac run_route :=
  unfold try_catch, bind, cast, query, await_write, start_write, deref,
         ret, throw, increaseQuantity; simpl.

(** * Sequences of requests *)

(** The database once the status write and the stock credit of a
    cancellation of [line] are applied. *)
Definition after_credit (iid : ObjectId) (line : CartItem) (d : Store) : Store :=
  Product_updateOne_inc (i_product line) (i_quantity line)
    (Cart_updateOne_status iid CART_ITEM_STATUS.Cancelled d).

(** The request that cancels one line: no [status] in the body. *)
Definition cancel_item_request (orderId cartId itemId : string) : ItemStatusRequest :=
  mkItemStatus itemId orderId cartId None.

(** Item requests served one after the other; the reply of each and
    the configuration it leaves. *)
Fixpoint run_items (castObjectId : string -> option ObjectId) (user : User)
         (reqs : list ItemStatusRequest) (c : Config) : list (Response * Config) :=
  match reqs with
  | [] => []
  | r :: rest =>
      let rc := route_status_item castObjectId user r c in
      rc :: run_items castObjectId user rest (snd rc)
  end.

(** The order and its cart are both still stored, or both gone. *)
Definition order_in_place (d : Store) (oid cid : ObjectId) : Prop :=
  Order_findOne d oid <> None /\ Cart_findOne d cid <> None.

Definition order_gone (d : Store) (oid cid : ObjectId) : Prop :=
  Order_findOne d oid = None /\ Cart_findOne d cid = None.

(** The view of the new order handed to the mail service. *)
Definition confirmation_view (d : Store) (order : Order) (cartDoc : Cart) : OrderView :=
  mkView (o_id order) (o_total order) (o_created order) (Some (o_user order)) None
         (populated_products d cartDoc) None.

(** * Lifetime of an order *)

(** The two ways an order is cancelled. *)
Inductive Cancellation : Type :=
| CancelItem (req : ItemStatusRequest)
| CancelOrder (orderId : string).

Definition run_cancellation (castObjectId : string -> option ObjectId) (user : User)
           (op : Cancellation) (c : Config) : Config :=
  match op with
  | CancelItem req => snd (route_status_item castObjectId user req c)
  | CancelOrder orderId => snd (route_cancel castObjectId user orderId c)
  end.

Definition run_lifetime (castObjectId : string -> option ObjectId) (user : User)
           (ops : list Cancellation) (c : Config) : Config :=
  fold_left (fun acc op => run_cancellation castObjectId user op acc) ops c.

(** The quantity of the lines a cancellation addresses that are Active
    when it arrives: the addressed line for an item cancel, every line
    of the bound cart for a whole-order cancel. *)
Definition active_quantity_addressed (castObjectId : string -> option ObjectId)
           (op : Cancellation) (d : Store) : Z :=
  match op with
  | CancelItem req =>
      match castObjectId (req_itemId req) with
      | Some iid =>
          match Cart_findOne_item d iid with
          | Some cd =>
              lines_quantity
                (active_lines (filter (fun p => id_eqb (i_id p) iid) (c_products cd)))
          | None => 0
          end
      | None => 0
      end
  | CancelOrder orderId =>
      match castObjectId orderId with
      | Some oid =>
          match Order_findOne d oid with
          | Some o =>
              match Cart_findOne d (o_cart o) with
              | Some cd => lines_quantity (active_lines (c_products cd))
              | None => 0
              end
          | None => 0
          end
      | None => 0
      end
  end.

Fixpoint active_at_cancellation (castObjectId : string -> option ObjectId) (user : User)
         (ops : list Cancellation) (c : Config) : Z :=
  match ops with
  | [] => 0
  | op :: rest =>
      active_quantity_addressed castObjectId op (settle c)
      + active_at_cancellation castObjectId user rest
          (run_cancellation castObjectId user op c)
  end.

(** Inventory conservation over a lifetime: what was credited to the
    stock is the quantity of the lines that were Active when they were
    cancelled. *)
Definition inventory_conserved (castObjectId : string -> option ObjectId) (user : User)
           (ops : list Cancellation) (c : Config) : Prop :=
  total_stock (settle (run_lifetime castObjectId user ops c)) - total_stock (settle c)
  = active_at_cancellation castObjectId user ops c.

(** * Tax calculator *)

Module TaxCalculator.

(** Modelled from the spec: the tax calculator is
    [store.calculateTaxAmount] of [utils/store], which is not among the
    sources.  Section 4.3 of the spec: from line items (quantity, unit
    price, taxable flag) and a fixed tax rate it returns the tax amount
    and the tax-adjusted total; only taxable lines contribute to the tax
    base; amounts are rounded to two decimals, half away from zero, at
    the point of output and never before. *)
Record Line : Type := mkLine {
  quantity : Z;
  unitPrice : Q;
  taxable : bool
}.

Record Totals : Type := mkTotals {
  taxBase : Q;
  taxAmount : Q;
  grandTotal : Q
}.

Definition line_total (l : Line) : Q := (inject_Z (quantity l) * unitPrice l)%Q.

Definition sum_lines (lines : list Line) : Q :=
  fold_right (fun l acc => (line_total l + acc)%Q) 0%Q lines.

(** Unrounded amounts. *)
Definition tax_base (lines : list Line) : Q := sum_lines (filter taxable lines).

Definition tax_amount (rate : Q) (lines : list Line) : Q := (tax_base lines * rate)%Q.

Definition grand_total (rate : Q) (lines : list Line) : Q :=
  (sum_lines lines + tax_amount rate lines)%Q.

(** The output: each amount is rounded once, from the unrounded value. *)
Definition calculate (rate : Q) (lines : list Line) : Totals :=
  mkTotals (toFixed2 (tax_base lines))
           (toFixed2 (tax_amount rate lines))
           (toFixed2 (grand_total rate lines)).

End TaxCalculator.

(** A computation that awaits every write it starts: it leaves the
    list of writes in flight as it found it. *)
Definition awaits_its_writes {A : Type} (m : M A) : Prop :=
  forall c, inflight (snd (m c)) = inflight c.

(** * The listing routes *)

(** Sorting newest first on a date field: [.sort('-created')] on a
    query.  The database does not fix the order of documents of equal
    date; the model keeps them in the order of the collection. *)
Section SortDescending.
Context {A : Type} (key : A -> Z).

Fixpoint insert_desc (x : A) (l : list A) : list A :=
  match l with
  | [] => [x]
  | y :: t => if key y <=? key x then x :: l else y :: insert_desc x t
  end.

Definition sort_desc (l : list A) : list A := fold_right insert_desc [] l.

(** [a] may come before [b] in a list that is newest first. *)
Definition newest_first (a b : A) : Prop := key b <= key a.
End SortDescending.

(** An order document after [populate]: its cart, when there is one,
    with the populated lines. *)
Record PopulatedOrder : Type := mkPopulatedOrder {
  po_order : Order;
  po_cart : option (Cart * list PopulatedItem)
}.

Definition populate_order (d : Store) (o : Order) : PopulatedOrder :=
  mkPopulatedOrder o
    (option_map (fun cartDoc => (cartDoc, populated_products d cartDoc))
                (Cart_findOne d (o_cart o))).

(** [req.query] of the listing routes.  The model covers the requests
    whose [page] and [limit] are positive whole numbers; [None] is a
    query without the field. *)
Record PageQuery : Type := mkPageQuery {
  q_page : option positive;
  q_limit : option positive
}.

(** [const { page = 1, limit = 10 } = req.query] *)
Definition page_of (q : PageQuery) : positive :=
  match q_page q with Some p => p | None => 1%positive end.

Definition limit_of (q : PageQuery) : positive :=
  match q_limit q with Some l => l | None => 10%positive end.

(** [.limit(limit * 1).skip((page - 1) * limit)]: a query skips before
    it limits, whatever the order of the two calls. *)
Definition paginate {A : Type} (page limit : positive) (l : list A) : list A :=
  firstn (Pos.to_nat limit) (skipn ((Pos.to_nat page - 1) * Pos.to_nat limit) l).

(** [Order.find(query).sort('-created').limit(...).skip(...)], where
    [query] is the filter [matches]. *)
Definition Order_find_page (matches : Order -> bool) (page limit : positive)
           (d : Store) : list Order :=
  paginate page limit (sort_desc o_created (filter matches (orders d))).

(** [Order.countDocuments(query)] *)
Definition Order_countDocuments (matches : Order -> bool) (d : Store) : nat :=
  List.length (filter matches (orders d)).

(** [Math.ceil(count / limit)] *)
Definition total_pages (count : nat) (limit : positive) : Z :=
  Qceiling (Qmake (Z.of_nat count) limit).

(** The replies of the listing routes: the page with status 200, or
    the reply of the catch block. *)
Inductive ListReply : Type :=
| List_page (found : list OrderView) (totalPages currentPage count : Z)
| List_error (reply : Response).

Definition try_catch_list (m : M ListReply) (c : Config) : ListReply * Config :=
  match m c with
  | (inl r, c') => (r, c')
  | (inr _, c') => (List_error (sendErrorResponse "Please try again."), c')
  end.

Section ListingRoutes.

(** [store.formatOrders] of [utils/store], which is not among the
    sources. *)
Variable formatOrders : list PopulatedOrder -> list OrderView.

Definition list_page (matches : Order -> bool) (q : PageQuery) : M ListReply :=
  let page := page_of q in
  let limit := limit_of q in
  ordersDoc <- query (fun d => map (populate_order d)
                                   (Order_find_page matches page limit d)) ;;
  count <- query (Order_countDocuments matches) ;;
  let found := formatOrders ordersDoc in
  ret (List_page found (total_pages count limit) (Zpos page) (Z.of_nat count)).

(** [router.get('/')], lines 115-145: [Order.find()] has no filter. *)
Definition route_list (user : User) (q : PageQuery) : Config -> ListReply * Config :=
  try_catch_list (list_page (fun _ => true) q).

(** [router.get('/me')], lines 147-180: the filter is [{ user }]. *)
Definition route_me (user : User) (q : PageQuery) : Config -> ListReply * Config :=
  try_catch_list (list_page (fun o => id_eqb (o_user o) (u_id user)) q).

(** The reply to a page request, for either filter. *)
Definition page_reply (matches : Order -> bool) (page limit : positive) (d : Store)
  : ListReply :=
  List_page
    (formatOrders (map (populate_order d) (Order_find_page matches page limit d)))
    (total_pages (Order_countDocuments matches d) limit)
    (Zpos page)
    (Z.of_nat (Order_countDocuments matches d)).

End ListingRoutes.

(** The filter [{ user }] of [GET /me]. *)
Definition owned_by (user : User) (o : Order) : bool := id_eqb (o_user o) (u_id user).

(** ** More sample data

    A market with two products, three carts (one of them empty) and the
    orders of two buyers. *)

Module Market.

Local Open Scope string_scope.

Definition productB : ObjectId := "bbbbbbbbbbbbbbbbbbbbbbbb".
Definition lineAB : ObjectId := "abababababababababababab".
Definition lineAB_upper : string := "ABABABABABABABABABABABAB".
Definition noSuchLine : ObjectId := "999999999999999999999999".
Definition cart2 : ObjectId := "c2c2c2c2c2c2c2c2c2c2c2c2".
Definition cart3 : ObjectId := "c3c3c3c3c3c3c3c3c3c3c3c3".
Definition noSuchCart : ObjectId := "c9c9c9c9c9c9c9c9c9c9c9c9".

Definition bobsCart : Cart :=
  mkCart cart2 [ mkItem lineAB productB 4 "Processing" ].

Definition emptyCart : Cart := mkCart cart3 [].

Definition bobsOrder : Order :=
  mkOrder Sample.order2 cart2 (u_id Sample.bob) 28 1700000500.

Definition market : Store :=
  mkStore
    [ mkProduct Sample.productA true 10 10; mkProduct productB false 7 7 ]
    [ Sample.theCart; bobsCart; emptyCart ]
    [ Sample.theOrder; bobsOrder ].

(** A stand-in for [formatOrders]: the bare view of each document. *)
Definition bareViews (docs : list PopulatedOrder) : list OrderView :=
  map (fun doc => mkView (o_id (po_order doc)) (o_total (po_order doc))
                         (o_created (po_order doc)) None None [] None) docs.

End Market.

(** No two orders and no two carts share an identifier. *)
Definition identifiers_unique (d : Store) : Prop :=
  NoDup (map o_id (orders d)) /\ NoDup (map c_id (carts d)).

(** What never changes in a product when its quantity does. *)
Definition product_card (p : Product) : ObjectId * bool * Q :=
  (p_id p, p_taxable p, p_price p).

(** The status an item request writes. *)
Definition requested_status (req : ItemStatusRequest) : string :=
  or_else (req_status req) CART_ITEM_STATUS.Cancelled.

Definition status_updated_reply : Response :=
  mkResponse 200 (Body_item false "Item status has been updated successfully!").

Definition placed_reply (newId : ObjectId) : Response :=
  mkResponse 200 (Body_placed "Your order has been placed successfully!" newId).

(** * What a cancellation credits *)

(** Some product has this identifier: an [updateOne] by [_id] finds a
    document to increment. *)
Definition product_stored (ps : list Product) (pid : ObjectId) : bool :=
  existsb (fun p => id_eqb (p_id p) pid) ps.

(** The quantity of the lines whose product is stored. *)
Definition creditable_quantity (ps : list Product) (lines : list CartItem) : Z :=
  fold_right
    (fun item acc =>
       (if product_stored ps (i_product item) then i_quantity item else 0) + acc)
    0 lines.

(** The lines a cancellation addresses, whatever their status: the
    line of an item request whose status to write is Cancelled and
    whose line is found; every line of the bound cart for a whole-order
    cancel that finds the order and the cart; no line for a request
    that fails before. *)
Definition addressed_lines (castObjectId : string -> option ObjectId)
           (op : Cancellation) (d : Store) : list CartItem :=
  match op with
  | CancelItem req =>
      match castObjectId (req_itemId req) with
      | Some iid =>
          match Cart_findOne_item d iid with
          | Some cd =>
              if String.eqb (requested_status req) CART_ITEM_STATUS.Cancelled
              then
                match find (fun p => String.eqb (i_id p) (req_itemId req))
                           (c_products cd) with
                | Some line => [line]
                | None => []
                end
              else []
          | None => []
          end
      | None => []
      end
  | CancelOrder orderId =>
      match castObjectId orderId with
      | Some oid =>
          match Order_findOne d oid with
          | Some o =>
              match Cart_findOne d (o_cart o) with
              | Some cd => c_products cd
              | None => []
              end
          | None => []
          end
      | None => []
      end
  end.

(** The quantity of the addressed lines whose product is stored, summed
    over the requests of a lifetime, each request looked at in the
    configuration it is served in. *)
Fixpoint addressed_over (castObjectId : string -> option ObjectId) (user : User)
         (ops : list Cancellation) (c : Config) : Z :=
  match ops with
  | [] => 0
  | op :: rest =>
      creditable_quantity (products (db c)) (addressed_lines castObjectId op (db c))
      + addressed_over castObjectId user rest (run_cancellation castObjectId user op c)
  end.

(** What the started writes will add to the stock. *)
Definition write_gain (ps : list Product) (w : PendingWrite) : Z :=
  match w with
  | PendingBulkWrite ops =>
      fold_right
        (fun op acc =>
           (if product_stored ps (bulk_filter_id op) then bulk_inc_quantity op else 0) + acc)
        0 ops
  end.

Definition pending_gain (ps : list Product) (ws : list PendingWrite) : Z :=
  fold_right (fun w acc => write_gain ps w + acc) 0 ws.

(** * Facts about the collections *)

Section CollectionFacts.
Context {A : Type}.
Implicit Types (f h : A -> bool) (g : A -> A) (l : list A).

Lemma update_first_length f g l :
  List.length (update_first f g l) = List.length l.
Proof.
  induction l as [|x t IH]; simpl; [reflexivity|].
  destruct (f x); simpl; congruence.
Qed.

Lemma update_first_map {B : Type} (k : A -> B) f g l :
  (forall x, k (g x) = k x) ->
  map k (update_first f g l) = map k l.
Proof.
  intros Hk. induction l as [|x t IH]; simpl; [reflexivity|].
  destruct (f x); simpl; congruence.
Qed.

Lemma update_first_none f g l :
  find f l = None -> update_first f g l = l.
Proof.
  induction l as [|x t IH]; simpl; [reflexivity|].
  destruct (f x); [discriminate|]. intros H. now rewrite IH.
Qed.

(** Two lookups that land on the same document still do after an
    update that keeps the second filter's verdicts. *)
Lemma find_update_first f h g l x :
  find f l = Some x ->
  find h l = Some x ->
  (forall y, h (g y) = h y) ->
  find h (update_first f g l) = Some (g x).
Proof.
  intros Hf Hh Hg. induction l as [|a t IH]; simpl in *; [discriminate|].
  destruct (f a) eqn:Efa.
  - injection Hf as ->. simpl. rewrite Hg.
    destruct (h x) eqn:Ehx; [reflexivity|].
    apply find_some in Hh. destruct Hh as [_ Hh]. congruence.
  - simpl. destruct (h a) eqn:Eha.
    + injection Hh as ->. apply find_some in Hf. destruct Hf as [_ Hf]. congruence.
    + now apply IH.
Qed.

Lemma delete_first_length f l x :
  find f l = Some x ->
  S (List.length (delete_first f l)) = List.length l.
Proof.
  induction l as [|a t IH]; simpl; [discriminate|].
  destruct (f a); [reflexivity|]. intros H. simpl. now rewrite IH.
Qed.

Lemma delete_first_incl f l x : In x (delete_first f l) -> In x l.
Proof.
  induction l as [|a t IH]; simpl; [tauto|].
  destruct (f a); simpl; intuition.
Qed.

Lemma find_none_iff f l : find f l = None <-> forall x, In x l -> f x = false.
Proof.
  split.
  - intros H x Hx. now apply (find_none f l H).
  - induction l as [|a t IH]; simpl; [reflexivity|].
    intros H. rewrite (H a (or_introl eq_refl)). apply IH. intros x Hx. apply H. now right.
Qed.

(** With unique keys, [deleteOne] by key leaves no document of that key. *)
Lemma find_delete_first_key (key : A -> ObjectId) (k : ObjectId) l :
  NoDup (map key l) ->
  find (fun x => id_eqb (key x) k) (delete_first (fun x => id_eqb (key x) k) l) = None.
Proof.
  induction l as [|a t IH]; simpl; [reflexivity|].
  intros Hnd. inversion Hnd as [|? ? Hnotin Hnd']; subst.
  destruct (id_eqb (key a) k) eqn:E.
  - apply id_eqb_eq in E. subst k. apply find_none_iff. intros x Hx.
    apply id_eqb_neq. intros Heq. apply Hnotin. rewrite <- Heq. now apply in_map.
  - simpl. rewrite E. now apply IH.
Qed.

(** The test [all.length === selected.length] of the routes. *)
Lemma length_filter_forallb f l :
  Nat.eqb (List.length l) (List.length (filter f l)) = forallb f l.
Proof.
  induction l as [|a t IH]; [reflexivity|].
  cbn [filter forallb]. destruct (f a); [exact IH|].
  pose proof (filter_length_le f t) as Hle.
  cbn [andb]. apply Nat.eqb_neq. cbn [List.length]. lia.
Qed.

Lemma existsb_find f l :
  existsb f l = true -> exists x, find f l = Some x.
Proof.
  induction l as [|a t IH]; simpl; [discriminate|].
  destruct (f a); [now exists a|]. exact IH.
Qed.
End CollectionFacts.

Section QueryFacts.

Variable castObjectId : string -> option ObjectId.
Variable ObjectId_isValid : string -> bool.
Variable calculateTaxAmount : OrderView -> OrderView.

(** ** [GET /search] *)

Lemma Mongoose_is_bound : resolve "Mongoose" = ret tt.
Proof. reflexivity. Qed.

Lemma mongoose_is_unbound : resolve "mongoose" = throw (ReferenceError "mongoose").
Proof. reflexivity. Qed.

(** C7 (what the code does).  The handler names [mongoose] on line 68
    while the module binds [Mongoose]: the test of the identifier
    raises before it is evaluated, so every search request, malformed
    identifier or not, is answered by the catch block with status 400
    and never with the empty order list. *)
Theorem search_always_generic_error (user : User) (search : string) (c : Config) :
  route_search castObjectId ObjectId_isValid calculateTaxAmount user search c
  = (generic_error, c)
  /\ status generic_error = 400
  /\ generic_error <> mkResponse 200 (Body_orders []).
Proof.
  split; [|split; [reflexivity | discriminate]].
  unfold route_search, try_catch, bind.
  rewrite mongoose_is_unbound. reflexivity.
Qed.

(** ** [GET /:orderId] *)

Lemma find_conj {A : Type} (f g : A -> bool) (l : list A) (x : A) :
  find f l = Some x -> g x = true ->
  find (fun y => f y && g y) l = Some x.
Proof.
  induction l as [|a t IH]; simpl; [discriminate|].
  destruct (f a) eqn:Ef; simpl.
  - intros [= ->] Hg. now rewrite Hg.
  - auto.
Qed.

Lemma find_conj_none {A : Type} (f g : A -> bool) (l : list A) :
  (forall y, In y l -> f y = true -> g y = false) ->
  find (fun y => f y && g y) l = None.
Proof.
  intros H. apply find_none_iff. intros x Hx.
  destruct (f x) eqn:Ef; [|reflexivity]. simpl. now apply H.
Qed.

Lemma route_get_found (user : User) (orderId : string) (oid : ObjectId)
      (o : Order) (cartDoc : Cart) (c : Config) :
  castObjectId orderId = Some oid ->
  (if role_eqb (u_role user) Admin
   then Order_findOne (db c) oid
   else Order_findOne_user (db c) oid (u_id user)) = Some o ->
  Cart_findOne (db c) (o_cart o) = Some cartDoc ->
  route_get castObjectId calculateTaxAmount user orderId c
  = (mkResponse 200 (Body_order (calculateTaxAmount (order_view (db c) o cartDoc))), c).
Proof.
  intros Hcast Ho Hc. unfold route_get. run_route. rewrite Hcast.
  destruct (role_eqb (u_role user) Admin); simpl; rewrite Ho; simpl;
    rewrite Hc; reflexivity.
Qed.

Lemma route_get_no_order (user : User) (orderId : string) (oid : ObjectId) (c : Config) :
  castObjectId orderId = Some oid ->
  (if role_eqb (u_role user) Admin
   then Order_findOne (db c) oid
   else Order_findOne_user (db c) oid (u_id user)) = None ->
  route_get castObjectId calculateTaxAmount user orderId c = (not_found orderId, c).
Proof.
  intros Hcast Ho. unfold route_get. run_route. rewrite Hcast.
  destruct (role_eqb (u_role user) Admin); simpl; rewrite Ho; reflexivity.
Qed.

Lemma route_get_no_cart (user : User) (orderId : string) (oid : ObjectId)
      (o : Order) (c : Config) :
  castObjectId orderId = Some oid ->
  (if role_eqb (u_role user) Admin
   then Order_findOne (db c) oid
   else Order_findOne_user (db c) oid (u_id user)) = Some o ->
  Cart_findOne (db c) (o_cart o) = None ->
  route_get castObjectId calculateTaxAmount user orderId c = (not_found orderId, c).
Proof.
  intros Hcast Ho Hc. unfold route_get. run_route. rewrite Hcast.
  destruct (role_eqb (u_role user) Admin); simpl; rewrite Ho; simpl;
    rewrite Hc; reflexivity.
Qed.

Lemma role_eqb_Admin (r : Role) : role_eqb r Admin = true <-> r = Admin.
Proof. destruct r; simpl; split; congruence. Qed.

(** C5.  For a well-formed order identifier: an Admin gets any
    existing order whose cart exists; a requester who is not Admin and
    owns no order of that identifier gets the 404 reply, which carries
    no order data; and the reply is that 404, not the generic error,
    when no order has the identifier or when the order the requester
    may see has lost its cart. *)
Theorem get_access_and_not_found
        (user : User) (orderId : string) (oid : ObjectId) (c : Config)
        (Hcast : castObjectId orderId = Some oid) :
  (forall o cartDoc,
      u_role user = Admin ->
      Order_findOne (db c) oid = Some o ->
      Cart_findOne (db c) (o_cart o) = Some cartDoc ->
      route_get castObjectId calculateTaxAmount user orderId c
      = (mkResponse 200 (Body_order (calculateTaxAmount (order_view (db c) o cartDoc))), c))
  /\ (u_role user <> Admin ->
      (forall o, In o (orders (db c)) -> o_id o = oid -> o_user o <> u_id user) ->
      route_get castObjectId calculateTaxAmount user orderId c = (not_found orderId, c))
  /\ (Order_findOne (db c) oid = None ->
      route_get castObjectId calculateTaxAmount user orderId c = (not_found orderId, c))
  /\ (forall o,
      Order_findOne (db c) oid = Some o ->
      u_role user = Admin \/ o_user o = u_id user ->
      Cart_findOne (db c) (o_cart o) = None ->
      route_get castObjectId calculateTaxAmount user orderId c = (not_found orderId, c)).
Proof.
  repeat split.
  - intros o cartDoc Hrole Ho Hc. apply route_get_found with (oid := oid); auto.
    apply role_eqb_Admin in Hrole. now rewrite Hrole.
  - intros Hrole Hown. apply route_get_no_order with (oid := oid); auto.
    destruct (role_eqb (u_role user) Admin) eqn:E.
    + apply role_eqb_Admin in E. contradiction.
    + apply find_conj_none. intros y Hy Hid. apply id_eqb_neq.
      apply Hown; auto. now apply id_eqb_eq.
  - intros Hnone. apply route_get_no_order with (oid := oid); auto.
    destruct (role_eqb (u_role user) Admin); auto.
    apply find_none_iff. intros x Hx.
    unfold Order_findOne in Hnone. rewrite find_none_iff in Hnone.
    now rewrite (Hnone x Hx).
  - intros o Ho Hvis Hc. apply route_get_no_cart with (oid := oid) (o := o); auto.
    destruct (role_eqb (u_role user) Admin) eqn:E; auto.
    destruct Hvis as [Hadm | Hown].
    + apply role_eqb_Admin in Hadm. congruence.
    + apply find_conj; auto. rewrite Hown. apply id_eqb_refl.
Qed.

End QueryFacts.

Section CancellationFacts.

Variable castObjectId : string -> option ObjectId.

(** ** [DELETE /cancel/:orderId] *)

Lemma route_cancel_run (user : User) (orderId : string) (oid : ObjectId)
      (o : Order) (cartDoc : Cart) (c : Config) :
  castObjectId orderId = Some oid ->
  Order_findOne (db c) oid = Some o ->
  Cart_findOne (db c) (o_cart o) = Some cartDoc ->
  route_cancel castObjectId user orderId c
  = (mkResponse 200 Body_success,
     mkConfig (Cart_deleteOne (o_cart o) (Order_deleteOne oid (db c)))
              (inflight c ++ [restock_of (c_products cartDoc)])).
Proof.
  intros Hcast Ho Hc. unfold route_cancel. run_route.
  rewrite Hcast, Ho. simpl. rewrite Hc. reflexivity.
Qed.

(** C6 (what the code does).  The handler never reads [req.user]: a
    requester who is neither the owner of the order nor an Admin gets
    the success reply, and the order and its cart are removed from
    their collections. *)
Theorem cancel_by_any_requester
        (user : User) (orderId : string) (oid : ObjectId)
        (o : Order) (cartDoc : Cart) (c : Config)
        (Hcast : castObjectId orderId = Some oid)
        (Horder : Order_findOne (db c) oid = Some o)
        (Hcart : Cart_findOne (db c) (o_cart o) = Some cartDoc)
        (Hstranger : o_user o <> u_id user)
        (Hrole : u_role user <> Admin) :
  let (reply, c') := route_cancel castObjectId user orderId c in
  reply = mkResponse 200 Body_success
  /\ S (List.length (orders (db c'))) = List.length (orders (db c))
  /\ S (List.length (carts (db c'))) = List.length (carts (db c))
  /\ inflight c' = inflight c ++ [restock_of (c_products cartDoc)].
Proof.
  rewrite (route_cancel_run user orderId oid o cartDoc c Hcast Horder Hcart).
  simpl. repeat split.
  - now apply delete_first_length with (x := o).
  - now apply delete_first_length with (x := cartDoc).
Qed.

(** C4 (what the code does).  When the reply of a whole-order cancel is
    sent the order and the cart are already deleted, while the restock
    is still in flight: the product collection is the one the request
    found, and the credit exists only as a started bulk write that
    nothing awaited. *)
Theorem cancel_deletes_before_restock
        (user : User) (orderId : string) (oid : ObjectId)
        (o : Order) (cartDoc : Cart) (d : Store)
        (Hcast : castObjectId orderId = Some oid)
        (Horder : Order_findOne d oid = Some o)
        (Hcart : Cart_findOne d (o_cart o) = Some cartDoc) :
  let (reply, c') := route_cancel castObjectId user orderId (at_rest d) in
  reply = mkResponse 200 Body_success
  /\ orders (db c') = delete_first (fun x => id_eqb (o_id x) oid) (orders d)
  /\ carts (db c') = delete_first (fun x => id_eqb (c_id x) (o_cart o)) (carts d)
  /\ products (db c') = products d
  /\ inflight c' = [restock_of (c_products cartDoc)]
  /\ completes c' (at_rest (apply_write (restock_of (c_products cartDoc)) (db c'))).
Proof.
  rewrite (route_cancel_run user orderId oid o cartDoc (at_rest d) Hcast Horder Hcart).
  simpl. repeat split.
  apply (completes_write _ [] [] (restock_of (c_products cartDoc))).
Qed.

(** ** Stock arithmetic *)

Lemma total_stock_inc (pid : ObjectId) (n : Z) (ps : list Product) :
  fold_right (fun p acc => p_quantity p + acc) 0 (inc_products pid n ps)
  = fold_right (fun p acc => p_quantity p + acc) 0 ps
    + (if existsb (fun p => id_eqb (p_id p) pid) ps then n else 0).
Proof.
  unfold inc_products. induction ps as [|p t IH]; simpl; [reflexivity|].
  destruct (id_eqb (p_id p) pid); simpl; [lia|]. rewrite IH. lia.
Qed.

Lemma existsb_inc_products (pid q : ObjectId) (n : Z) (ps : list Product) :
  existsb (fun p => id_eqb (p_id p) q) (inc_products pid n ps)
  = existsb (fun p => id_eqb (p_id p) q) ps.
Proof.
  unfold inc_products. induction ps as [|p t IH]; simpl; [reflexivity|].
  destruct (id_eqb (p_id p) pid); simpl; [reflexivity|]. now rewrite IH.
Qed.

Lemma Product_findOne_existsb (d : Store) (pid : ObjectId) :
  Product_findOne d pid <> None ->
  existsb (fun p => id_eqb (p_id p) pid) (products d) = true.
Proof.
  unfold Product_findOne. intros H.
  destruct (find _ (products d)) as [p|] eqn:E; [|congruence].
  apply find_some in E. apply existsb_exists. now exists p.
Qed.

Lemma total_stock_updateOne (pid : ObjectId) (n : Z) (d : Store) :
  Product_findOne d pid <> None ->
  total_stock (Product_updateOne_inc pid n d) = total_stock d + n.
Proof.
  intros H. unfold total_stock, Product_updateOne_inc. simpl.
  rewrite total_stock_inc, (Product_findOne_existsb d pid H). reflexivity.
Qed.

Lemma Product_findOne_updateOne (pid q : ObjectId) (n : Z) (d : Store) :
  Product_findOne d q <> None ->
  Product_findOne (Product_updateOne_inc pid n d) q <> None.
Proof.
  intros H. apply Product_findOne_existsb in H.
  unfold Product_findOne, Product_updateOne_inc. simpl.
  rewrite <- (existsb_inc_products pid q n) in H.
  apply existsb_find in H. destruct H as [x Hx]. now rewrite Hx.
Qed.

(** A bulk restock raises the stock by the quantities of all the
    lines it was built from. *)
Lemma total_stock_bulkWrite (lines : list CartItem) (d : Store) :
  products_exist d lines ->
  total_stock (apply_write (restock_of lines) d) = total_stock d + lines_quantity lines.
Proof.
  unfold restock_of, apply_write, Product_bulkWrite.
  revert d. induction lines as [|item t IH]; intros d Hex; simpl.
  - lia.
  - rewrite IH.
    + rewrite total_stock_updateOne; [lia|]. apply Hex. now left.
    + intros x Hx. apply Product_findOne_updateOne. apply Hex. now right.
Qed.

Lemma lines_quantity_split (lines : list CartItem) :
  lines_quantity lines
  = lines_quantity (active_lines lines) + lines_quantity (cancelled_lines lines).
Proof.
  unfold active_lines, cancelled_lines.
  induction lines as [|item t IH]; simpl; [reflexivity|].
  destruct (item_cancelled item); simpl; lia.
Qed.

(** ** [PUT /status/item/:itemId] *)

(** What the handler does once it has found the cart line and the
    status to write is Cancelled. *)
Lemma route_status_item_cancel_run
      (user : User) (req : ItemStatusRequest) (iid : ObjectId)
      (cd : Cart) (line : CartItem) (c : Config) :
  castObjectId (req_itemId req) = Some iid ->
  Cart_findOne_item (db c) iid = Some cd ->
  find (fun p => String.eqb (i_id p) (req_itemId req)) (c_products cd) = Some line ->
  or_else (req_status req) CART_ITEM_STATUS.Cancelled = CART_ITEM_STATUS.Cancelled ->
  route_status_item castObjectId user req c
  = let d1 := after_credit iid line (db c) in
    match castObjectId (req_cartId req) with
    | None => (generic_error, mkConfig d1 (inflight c))
    | Some cid =>
        match Cart_findOne d1 cid with
        | None => (generic_error, mkConfig d1 (inflight c))
        | Some cart =>
            if forallb item_cancelled (c_products cart)
            then
              match castObjectId (req_orderId req) with
              | None => (generic_error, mkConfig d1 (inflight c))
              | Some oid =>
                  (order_cancelled_reply user,
                   mkConfig (Cart_deleteOne cid (Order_deleteOne oid d1)) (inflight c))
              end
            else (item_cancelled_reply, mkConfig d1 (inflight c))
        end
    end.
Proof.
  intros Hcast Hfound Hline Hstatus. unfold route_status_item. run_route.
  rewrite Hcast, Hfound. simpl. rewrite Hstatus, Hline. simpl.
  unfold after_credit.
  destruct (castObjectId (req_cartId req)) as [cid|]; simpl; [|reflexivity].
  match goal with
  | |- context [Cart_findOne ?d cid] => destruct (Cart_findOne d cid) as [cart|]
  end; simpl; [|reflexivity].
  rewrite length_filter_forallb.
  destruct (forallb item_cancelled (c_products cart)); simpl; [|reflexivity].
  destruct (castObjectId (req_orderId req)); reflexivity.
Qed.

(** Neither a status write nor a deletion of orders and carts changes
    the stock: after the credit the total is fixed. *)
Lemma total_stock_after_credit (iid : ObjectId) (line : CartItem) (d : Store) :
  Product_findOne d (i_product line) <> None ->
  total_stock (after_credit iid line d) = total_stock d + i_quantity line.
Proof.
  intros H. unfold after_credit. now rewrite total_stock_updateOne.
Qed.

Lemma route_status_item_credit
      (user : User) (req : ItemStatusRequest) (iid : ObjectId)
      (cd : Cart) (line : CartItem) (c : Config) :
  castObjectId (req_itemId req) = Some iid ->
  Cart_findOne_item (db c) iid = Some cd ->
  find (fun p => String.eqb (i_id p) (req_itemId req)) (c_products cd) = Some line ->
  or_else (req_status req) CART_ITEM_STATUS.Cancelled = CART_ITEM_STATUS.Cancelled ->
  Product_findOne (db c) (i_product line) <> None ->
  total_stock (db (snd (route_status_item castObjectId user req c)))
  = total_stock (db c) + i_quantity line.
Proof.
  intros Hcast Hfound Hline Hstatus Hprod.
  rewrite (route_status_item_cancel_run user req iid cd line c Hcast Hfound Hline Hstatus).
  cbv zeta.
  pose proof (total_stock_after_credit iid line (db c) Hprod) as Hcredit.
  destruct (castObjectId (req_cartId req)) as [cid|]; [|exact Hcredit].
  destruct (Cart_findOne _ cid) as [cart|]; [|exact Hcredit].
  destruct (forallb item_cancelled (c_products cart)); [|exact Hcredit].
  destruct (castObjectId (req_orderId req)); exact Hcredit.
Qed.

(** *** The cart after a status write *)

Lemma has_item_set_item_status (j i : ObjectId) (s : string) (cd : Cart) :
  has_item j (set_item_status i s cd) = has_item j cd.
Proof.
  unfold has_item, set_item_status. simpl.
  induction (c_products cd) as [|a t IH]; simpl; [reflexivity|].
  destruct (id_eqb (i_id a) i); simpl; [reflexivity|]. now rewrite IH.
Qed.

Lemma carts_after_credit (iid : ObjectId) (line : CartItem) (d : Store) :
  carts (after_credit iid line d)
  = update_first (has_item iid) (set_item_status iid CART_ITEM_STATUS.Cancelled) (carts d).
Proof. reflexivity. Qed.

Lemma orders_after_credit (iid : ObjectId) (line : CartItem) (d : Store) :
  orders (after_credit iid line d) = orders d.
Proof. reflexivity. Qed.

(** The cart addressed by its identifier is the cart that holds the
    line: after the write it is that cart with the line cancelled. *)
Lemma Cart_findOne_after_credit
      (iid cid : ObjectId) (line : CartItem) (cd : Cart) (d : Store) :
  Cart_findOne_item d iid = Some cd ->
  Cart_findOne d cid = Some cd ->
  Cart_findOne (after_credit iid line d) cid
  = Some (set_item_status iid CART_ITEM_STATUS.Cancelled cd).
Proof.
  intros Hitem Hcart. unfold Cart_findOne. rewrite carts_after_credit.
  apply find_update_first; auto.
Qed.

Lemma Cart_findOne_item_after_credit
      (iid j : ObjectId) (line : CartItem) (cd : Cart) (d : Store) :
  Cart_findOne_item d iid = Some cd ->
  Cart_findOne_item d j = Some cd ->
  Cart_findOne_item (after_credit iid line d) j
  = Some (set_item_status iid CART_ITEM_STATUS.Cancelled cd).
Proof.
  intros Hitem Hj. unfold Cart_findOne_item. rewrite carts_after_credit.
  apply find_update_first; auto.
  intros y. apply has_item_set_item_status.
Qed.

Lemma item_cancelled_set_status (item : CartItem) :
  item_cancelled (set_status CART_ITEM_STATUS.Cancelled item) = true.
Proof. reflexivity. Qed.

(** With unique line identifiers, the lines of a cart after a status
    write are the addressed line with its new status and the other
    lines as they were. *)
Lemma in_lines_after_status (i : ObjectId) (s : string)
      (lines : list CartItem) (item' : CartItem) :
  NoDup (map i_id lines) ->
  In item' (update_first (fun p => id_eqb (i_id p) i) (set_status s) lines)
  <-> (exists item, In item lines /\ i_id item = i /\ item' = set_status s item)
      \/ (In item' lines /\ i_id item' <> i).
Proof.
  induction lines as [|a t IH]; simpl; intros Hnd.
  - split; [tauto|]. intros [(x & [] & _) | ([] & _)].
  - inversion Hnd as [|? ? Hnotin Hnd']; subst.
    destruct (id_eqb (i_id a) i) eqn:E.
    + apply id_eqb_eq in E. simpl. split.
      * intros [<- | Hin].
        -- left. exists a. auto.
        -- right. split; [now right|]. intros Heq. apply Hnotin.
           rewrite E, <- Heq. now apply in_map.
      * intros [(x & [<- | Hx] & Hid & ->) | ([<- | Hin] & Hne)].
        -- now left.
        -- exfalso. apply Hnotin. rewrite E, <- Hid. now apply in_map.
        -- contradiction.
        -- now right.
    + apply id_eqb_neq in E. simpl. rewrite (IH Hnd'). split.
      * intros [<- | [(x & Hx & Hid & ->) | (Hin & Hne)]].
        -- right. auto.
        -- left. exists x. auto.
        -- right. auto.
      * intros [(x & [<- | Hx] & Hid & ->) | ([<- | Hin] & Hne)].
        -- contradiction.
        -- right. left. exists x. auto.
        -- now left.
        -- right. right. auto.
Qed.

Lemma has_item_In (i : ObjectId) (cd : Cart) :
  has_item i cd = true <-> exists item, In item (c_products cd) /\ i_id item = i.
Proof.
  unfold has_item. rewrite existsb_exists. split.
  - intros (x & Hx & E). exists x. split; auto. now apply id_eqb_eq.
  - intros (x & Hx & E). exists x. split; auto. now apply id_eqb_eq.
Qed.

Lemma Cart_findOne_item_has (d : Store) (i : ObjectId) (cd : Cart) :
  Cart_findOne_item d i = Some cd -> has_item i cd = true.
Proof. intros H. now apply find_some in H. Qed.

Lemma found_line (i : ObjectId) (cd : Cart) :
  has_item i cd = true ->
  exists line,
    find (fun p => String.eqb (i_id p) i) (c_products cd) = Some line.
Proof. intros H. now apply existsb_find in H. Qed.

(** *** Cancelling the lines of one cart, one request per line *)

Lemma cancel_item_step
      (user : User) (orderId cartId : string) (i oid cid : ObjectId)
      (cd : Cart) (c : Config) :
  castObjectId orderId = Some oid ->
  castObjectId cartId = Some cid ->
  castObjectId i = Some i ->
  Cart_findOne (db c) cid = Some cd ->
  Cart_findOne_item (db c) i = Some cd ->
  exists line,
    find (fun p => String.eqb (i_id p) i) (c_products cd) = Some line
    /\ route_status_item castObjectId user (cancel_item_request orderId cartId i) c
       = if forallb item_cancelled
              (c_products (set_item_status i CART_ITEM_STATUS.Cancelled cd))
         then (order_cancelled_reply user,
               mkConfig (Cart_deleteOne cid (Order_deleteOne oid (after_credit i line (db c))))
                        (inflight c))
         else (item_cancelled_reply, mkConfig (after_credit i line (db c)) (inflight c)).
Proof.
  intros Horder Hcart Hi Hfound Hitem.
  destruct (found_line i cd (Cart_findOne_item_has _ _ _ Hitem)) as [line Hline].
  exists line. split; [exact Hline|].
  rewrite (route_status_item_cancel_run user (cancel_item_request orderId cartId i)
             i cd line c Hi Hitem Hline eq_refl).
  cbv zeta. simpl req_cartId. simpl req_orderId.
  rewrite Hcart, (Cart_findOne_after_credit i cid line cd (db c) Hitem Hfound), Horder.
  reflexivity.
Qed.

(** The test "every line is cancelled" right after line [i] was
    cancelled: it holds exactly when no other line was still active. *)
Lemma all_cancelled_after (i : ObjectId) (rest : list ObjectId) (lines : list CartItem) :
  NoDup (map i_id lines) ->
  NoDup (i :: rest) ->
  (forall item, In item lines -> (item_cancelled item = false <-> In (i_id item) (i :: rest))) ->
  (forall j, In j rest -> exists item, In item lines /\ i_id item = j) ->
  forallb item_cancelled
    (update_first (fun p => id_eqb (i_id p) i) (set_status CART_ITEM_STATUS.Cancelled) lines)
  = match rest with [] => true | _ :: _ => false end.
Proof.
  intros Hnd Hids Hact Hres.
  inversion Hids as [|? ? Hnotin Hrest]; subst.
  destruct rest as [|j rest'].
  - apply forallb_forall. intros x Hx.
    apply in_lines_after_status in Hx; [|exact Hnd].
    destruct Hx as [(item & _ & _ & ->) | (Hin & Hne)];
      [apply item_cancelled_set_status|].
    destruct (item_cancelled x) eqn:E; [reflexivity|].
    apply (Hact x Hin) in E. destruct E as [E | []]. congruence.
  - apply not_true_is_false. intros Hall.
    rewrite forallb_forall in Hall.
    destruct (Hres j (or_introl eq_refl)) as (item & Hin & Hid).
    assert (Hne : i_id item <> i).
    { rewrite Hid. intros ->. apply Hnotin. now left. }
    assert (Hin' : In item (update_first (fun p => id_eqb (i_id p) i)
                               (set_status CART_ITEM_STATUS.Cancelled) lines)).
    { apply in_lines_after_status; auto. }
    apply Hall in Hin'.
    assert (E : item_cancelled item = false).
    { apply (Hact item Hin). rewrite Hid. right. now left. }
    congruence.
Qed.

(** What stays true of the cart between two requests of the sequence. *)
Lemma active_lines_after (i : ObjectId) (rest : list ObjectId) (lines : list CartItem) :
  NoDup (map i_id lines) ->
  NoDup (i :: rest) ->
  (forall item, In item lines -> (item_cancelled item = false <-> In (i_id item) (i :: rest))) ->
  forall item,
    In item (update_first (fun p => id_eqb (i_id p) i)
               (set_status CART_ITEM_STATUS.Cancelled) lines) ->
    (item_cancelled item = false <-> In (i_id item) rest).
Proof.
  intros Hnd Hids Hact item Hin.
  inversion Hids as [|? ? Hnotin Hrest]; subst.
  apply in_lines_after_status in Hin; [|exact Hnd].
  destruct Hin as [(x & _ & Hid & ->) | (Hin & Hne)].
  - rewrite item_cancelled_set_status. simpl. rewrite Hid.
    split; [discriminate|]. intros H. contradiction.
  - rewrite (Hact item Hin). simpl. split.
    + intros [E | H]; [congruence | exact H].
    + intros H. now right.
Qed.

Lemma run_items_nonempty (user : User) (reqs : list ItemStatusRequest) (c : Config) :
  reqs <> [] -> run_items castObjectId user reqs c <> [].
Proof. destruct reqs; simpl; congruence. Qed.

Lemma cancel_lines_trace
      (user : User) (orderId cartId : string) (oid cid : ObjectId) (o : Order)
      (Horder : castObjectId orderId = Some oid)
      (Hcart : castObjectId cartId = Some cid) :
  forall (ids : list ObjectId) (cd : Cart) (c : Config),
    ids <> [] ->
    NoDup ids ->
    (forall i, In i ids -> castObjectId i = Some i) ->
    NoDup (map o_id (orders (db c))) ->
    NoDup (map c_id (carts (db c))) ->
    Order_findOne (db c) oid = Some o ->
    Cart_findOne (db c) cid = Some cd ->
    NoDup (map i_id (c_products cd)) ->
    (forall i, In i ids -> Cart_findOne_item (db c) i = Some cd) ->
    (forall item, In item (c_products cd) ->
                  (item_cancelled item = false <-> In (i_id item) ids)) ->
    exists earlier cN,
      run_items castObjectId user (map (cancel_item_request orderId cartId) ids) c
      = earlier ++ [(order_cancelled_reply user, cN)]
      /\ Forall (fun rc => fst rc = item_cancelled_reply
                           /\ order_in_place (db (snd rc)) oid cid) earlier
      /\ order_gone (db cN) oid cid.
Proof.
  induction ids as [|i rest IH]; [congruence|].
  intros cd c _ Hids Hcanon Hnd_o Hnd_c Ho Hc Hnd_i Hitems Hact.
  assert (Hi : Cart_findOne_item (db c) i = Some cd) by (apply Hitems; now left).
  destruct (cancel_item_step user orderId cartId i oid cid cd c Horder Hcart
              (Hcanon i (or_introl eq_refl)) Hc Hi) as (line & Hline & Hrun).
  assert (Hres : forall j, In j rest ->
                           exists item, In item (c_products cd) /\ i_id item = j).
  { intros j Hj. apply has_item_In.
    apply Cart_findOne_item_has with (d := db c). apply Hitems. now right. }
  cbn [map run_items]. rewrite Hrun. cbn [set_item_status c_products].
  rewrite (all_cancelled_after i rest (c_products cd) Hnd_i Hids Hact Hres).
  destruct rest as [|j rest'].
  - exists [], (mkConfig (Cart_deleteOne cid (Order_deleteOne oid (after_credit i line (db c))))
                         (inflight c)).
    split; [reflexivity|]. split; [constructor|]. split.
    + unfold Order_findOne. cbn [db orders Cart_deleteOne Order_deleteOne].
      rewrite orders_after_credit.
      now apply (find_delete_first_key o_id).
    + unfold Cart_findOne. cbn [db carts Cart_deleteOne Order_deleteOne].
      apply (find_delete_first_key c_id).
      rewrite carts_after_credit, update_first_map; auto.
  - set (c1 := mkConfig (after_credit i line (db c)) (inflight c)).
    set (cd1 := set_item_status i CART_ITEM_STATUS.Cancelled cd).
    inversion Hids as [|? ? Hnotin Hrest]; subst.
    assert (Hc1 : Cart_findOne (db c1) cid = Some cd1)
      by (apply Cart_findOne_after_credit; auto).
    destruct (IH cd1 c1) as (earlier & cN & Htrace & Hearlier & Hgone).
    + discriminate.
    + exact Hrest.
    + intros k Hk. apply Hcanon. now right.
    + exact Hnd_o.
    + cbn [c1 db]. rewrite carts_after_credit, update_first_map; auto.
    + exact Ho.
    + exact Hc1.
    + cbn [cd1 set_item_status c_products]. rewrite update_first_map; auto.
    + intros k Hk. apply Cart_findOne_item_after_credit; auto.
      apply Hitems. now right.
    + intros item Hin. cbn [cd1 set_item_status c_products] in Hin.
      now apply (active_lines_after i (j :: rest') (c_products cd)).
    + cbn [snd]. fold c1. rewrite Htrace.
      exists ((item_cancelled_reply, c1) :: earlier), cN.
      split; [reflexivity|]. split; [|exact Hgone].
      constructor; [|exact Hearlier]. cbn [fst snd]. split; [reflexivity|].
      split.
      * unfold Order_findOne. cbn [c1 db]. rewrite orders_after_credit.
        unfold Order_findOne in Ho. rewrite Ho. discriminate.
      * rewrite Hc1. discriminate.
Qed.

(** C3.  Take an order, its cart, and the lines of the cart that are
    not yet cancelled, in any order.  Cancelling them one request per
    line deletes nothing and answers "item cancelled" on every request
    but the last; the last request, after which every line is
    cancelled, answers [orderCancelled] and leaves neither the order
    nor the cart in the database. *)
Theorem order_removed_on_last_cancelled_line
        (user : User) (orderId cartId : string) (oid cid : ObjectId)
        (o : Order) (cd : Cart) (ids : list ObjectId) (c : Config)
        (Horder : castObjectId orderId = Some oid)
        (Hcart : castObjectId cartId = Some cid)
        (Hcanon : forall i, In i ids -> castObjectId i = Some i)
        (Hnd_o : NoDup (map o_id (orders (db c))))
        (Hnd_c : NoDup (map c_id (carts (db c))))
        (Ho : Order_findOne (db c) oid = Some o)
        (Hbound : o_cart o = cid)
        (Hc : Cart_findOne (db c) cid = Some cd)
        (Hnd_i : NoDup (map i_id (c_products cd)))
        (Hitems : forall i, In i ids -> Cart_findOne_item (db c) i = Some cd)
        (Hids : NoDup ids)
        (Hsome : ids <> [])
        (Hact : forall item, In item (c_products cd) ->
                             (item_cancelled item = false <-> In (i_id item) ids)) :
  exists earlier cN,
    run_items castObjectId user (map (cancel_item_request orderId cartId) ids) c
    = earlier ++ [(order_cancelled_reply user, cN)]
    /\ S (List.length earlier) = List.length ids
    /\ Forall (fun rc => fst rc = item_cancelled_reply
                         /\ reports_orderCancelled (fst rc) = false
                         /\ order_in_place (db (snd rc)) oid cid) earlier
    /\ reports_orderCancelled (order_cancelled_reply user) = true
    /\ order_gone (db cN) oid cid.
Proof.
  destruct (cancel_lines_trace user orderId cartId oid cid o Horder Hcart
              ids cd c Hsome Hids Hcanon Hnd_o Hnd_c Ho Hc Hnd_i Hitems Hact)
    as (earlier & cN & Htrace & Hearlier & Hgone).
  exists earlier, cN. split; [exact Htrace|]. split.
  - assert (Hlen : List.length (run_items castObjectId user
                       (map (cancel_item_request orderId cartId) ids) c)
                   = List.length ids).
    { clear. generalize c. induction ids as [|i t IH]; intros c0; simpl;
        [reflexivity|]. now rewrite IH. }
    rewrite Htrace, length_app in Hlen. simpl in Hlen. lia.
  - split; [|split; [reflexivity|exact Hgone]].
    eapply Forall_impl; [|exact Hearlier].
    intros rc (Hr & Hplace). rewrite Hr. repeat split; auto; apply Hplace.
Qed.

(** *** One item request *)

Lemma find_line_after_status (i : ObjectId) (s : string)
      (lines : list CartItem) (line : CartItem) :
  find (fun p => id_eqb (i_id p) i) lines = Some line ->
  find (fun p => id_eqb (i_id p) i)
       (update_first (fun p => id_eqb (i_id p) i) (set_status s) lines)
  = Some (set_status s line).
Proof.
  induction lines as [|a t IH]; simpl; [discriminate|].
  destruct (id_eqb (i_id a) i) eqn:E; simpl.
  - intros [= ->]. now rewrite E.
  - rewrite E. exact IH.
Qed.

Lemma or_else_missing (value : option string) (fallback : string) :
  value = None \/ value = Some ""%string -> or_else value fallback = fallback.
Proof. intros [-> | ->]; reflexivity. Qed.

(** C10.  A request without a status (the field is missing or empty)
    is served exactly like the request that names Cancelled: same
    reply, same final configuration, whatever the request addresses.
    When the line is found, its status in the stored cart becomes
    Cancelled and its quantity is added to the stock; the only later
    change is the deletion of the order and cart when every line is
    cancelled. *)
Theorem missing_status_cancels
        (user : User) (req : ItemStatusRequest) (c : Config)
        (Hmissing : req_status req = None \/ req_status req = Some ""%string) :
  let explicit :=
    mkItemStatus (req_itemId req) (req_orderId req) (req_cartId req)
                 (Some CART_ITEM_STATUS.Cancelled) in
  let result := route_status_item castObjectId user req c in
  result = route_status_item castObjectId user explicit c
  /\ forall (cd : Cart) (line : CartItem),
      castObjectId (req_itemId req) = Some (req_itemId req) ->
      Cart_findOne_item (db c) (req_itemId req) = Some cd ->
      find (fun p => String.eqb (i_id p) (req_itemId req)) (c_products cd) = Some line ->
      Product_findOne (db c) (i_product line) <> None ->
      let d1 := after_credit (req_itemId req) line (db c) in
      let cancelled := set_item_status (req_itemId req) CART_ITEM_STATUS.Cancelled cd in
      (db (snd result) = d1
       \/ exists cid oid, db (snd result) = Cart_deleteOne cid (Order_deleteOne oid d1))
      /\ Cart_findOne_item d1 (req_itemId req) = Some cancelled
      /\ find (fun p => id_eqb (i_id p) (req_itemId req)) (c_products cancelled)
         = Some (set_status CART_ITEM_STATUS.Cancelled line)
      /\ total_stock (db (snd result)) = total_stock (db c) + i_quantity line.
Proof.
  cbv zeta.
  pose proof (or_else_missing _ CART_ITEM_STATUS.Cancelled Hmissing) as Hstatus.
  split.
  - unfold route_status_item. cbn [req_itemId req_orderId req_cartId req_status].
    rewrite Hstatus. reflexivity.
  - intros cd line Hcast Hfound Hline Hprod. split; [|split; [|split]].
    + rewrite (route_status_item_cancel_run user req _ cd line c Hcast Hfound Hline Hstatus).
      cbv zeta.
      destruct (castObjectId (req_cartId req)) as [cid|]; [|now left].
      destruct (Cart_findOne _ cid) as [cart|]; [|now left].
      destruct (forallb item_cancelled (c_products cart)); [|now left].
      destruct (castObjectId (req_orderId req)) as [oid|]; [|now left].
      right. now exists cid, oid.
    + now apply Cart_findOne_item_after_credit.
    + cbn [set_item_status c_products]. now apply find_line_after_status.
    + now apply (route_status_item_credit user req (req_itemId req) cd line c).
Qed.

(** C2 (as amended).  A cancel request for a line that is already
    Cancelled adds the quantity of the line to the stock once more,
    and is answered with status 200 and [success: true]: the credit is
    made on every cancel request, whatever the status of the line. *)
Theorem cancel_item_again_restocks
        (user : User) (req : ItemStatusRequest) (cid oid : ObjectId)
        (cd : Cart) (line : CartItem) (c : Config)
        (Hstatus : or_else (req_status req) CART_ITEM_STATUS.Cancelled
                   = CART_ITEM_STATUS.Cancelled)
        (Hcast : castObjectId (req_itemId req) = Some (req_itemId req))
        (Hcart : castObjectId (req_cartId req) = Some cid)
        (Horder : castObjectId (req_orderId req) = Some oid)
        (Hfound : Cart_findOne_item (db c) (req_itemId req) = Some cd)
        (Hsame : Cart_findOne (db c) cid = Some cd)
        (Hline : find (fun p => String.eqb (i_id p) (req_itemId req)) (c_products cd)
                 = Some line)
        (Halready : item_cancelled line = true)
        (Hprod : Product_findOne (db c) (i_product line) <> None) :
  let (reply, c') := route_status_item castObjectId user req c in
  total_stock (db c') = total_stock (db c) + i_quantity line
  /\ status reply = 200
  /\ reports_success reply = true.
Proof.
  pose proof (route_status_item_credit user req _ cd line c
                Hcast Hfound Hline Hstatus Hprod) as Hcredit.
  rewrite (route_status_item_cancel_run user req _ cd line c Hcast Hfound Hline Hstatus)
    in Hcredit |- *.
  cbv zeta in Hcredit |- *.
  rewrite Hcart, (Cart_findOne_after_credit _ cid line cd (db c) Hfound Hsame), Horder
    in Hcredit |- *.
  destruct (forallb item_cancelled _); simpl in Hcredit |- *; auto.
Qed.

(** One request served at rest, products stored: a whole-order cancel
    credits the quantity of every line of the cart, the lines that are
    active and the lines that are already cancelled; an item cancel
    credits the quantity of the addressed line whatever its status. *)
Theorem restock_credits_every_addressed_line
        (user : User) (orderId : string) (oid : ObjectId)
        (o : Order) (cd : Cart) (d : Store)
        (Hcast : castObjectId orderId = Some oid)
        (Ho : Order_findOne d oid = Some o)
        (Hc : Cart_findOne d (o_cart o) = Some cd)
        (Hprods : products_exist d (c_products cd)) :
  total_stock (settle (snd (route_cancel castObjectId user orderId (at_rest d))))
  = total_stock d
    + lines_quantity (active_lines (c_products cd))
    + lines_quantity (cancelled_lines (c_products cd))
  /\ forall (req : ItemStatusRequest) (line : CartItem),
      castObjectId (req_itemId req) = Some (req_itemId req) ->
      Cart_findOne_item d (req_itemId req) = Some cd ->
      find (fun p => String.eqb (i_id p) (req_itemId req)) (c_products cd) = Some line ->
      or_else (req_status req) CART_ITEM_STATUS.Cancelled = CART_ITEM_STATUS.Cancelled ->
      total_stock (db (snd (route_status_item castObjectId user req (at_rest d))))
      = total_stock d + i_quantity line.
Proof.
  split.
  - rewrite (route_cancel_run user orderId oid o cd (at_rest d) Hcast Ho Hc).
    unfold settle. cbn [snd inflight db at_rest app fold_left].
    rewrite total_stock_bulkWrite.
    + rewrite (lines_quantity_split (c_products cd)).
      unfold total_stock. cbn [products Cart_deleteOne Order_deleteOne]. lia.
    + exact Hprods.
  - intros req line Hcanon Hfound Hline Hstatus.
    apply (route_status_item_credit user req (req_itemId req) cd line (at_rest d));
      auto.
    apply Hprods. apply find_some in Hline. apply Hline.
Qed.

(** *** Awaited writes *)

Lemma awaits_ret {A : Type} (a : A) : awaits_its_writes (ret a).
Proof. intros c. reflexivity. Qed.

Lemma awaits_throw {A : Type} (e : Exn) : awaits_its_writes (@throw A e).
Proof. intros c. reflexivity. Qed.

Lemma awaits_query {A : Type} (f : Store -> A) : awaits_its_writes (query f).
Proof. intros c. reflexivity. Qed.

Lemma awaits_await_write (f : Store -> Store) : awaits_its_writes (await_write f).
Proof. intros c. reflexivity. Qed.

Lemma awaits_deref {A : Type} (property : string) (o : option A) :
  awaits_its_writes (deref property o).
Proof. intros c. destruct o; reflexivity. Qed.

Lemma awaits_cast (value : string) : awaits_its_writes (cast castObjectId value).
Proof. intros c. unfold cast. destruct (castObjectId value); reflexivity. Qed.

Lemma awaits_bind {A B : Type} (m : M A) (k : A -> M B) :
  awaits_its_writes m -> (forall a, awaits_its_writes (k a)) ->
  awaits_its_writes (bind m k).
Proof.
  intros Hm Hk c. unfold bind. specialize (Hm c).
  destruct (m c) as [[a | e] c1]; simpl in *.
  - now rewrite Hk.
  - exact Hm.
Qed.

Lemma awaits_try_catch (m : M Response) (c : Config) :
  awaits_its_writes m -> inflight (snd (try_catch m c)) = inflight c.
Proof.
  intros Hm. unfold try_catch. specialize (Hm c).
  destruct (m c) as [[r | e] c1]; exact Hm.
Qed.

(** The item route awaits each of its writes: when it deletes the
    order and the cart, the stock credit of the request is applied. *)
Lemma route_status_item_awaits (user : User) (req : ItemStatusRequest) (c : Config) :
  inflight (snd (route_status_item castObjectId user req c)) = inflight c.
Proof.
  unfold route_status_item. apply awaits_try_catch. cbv zeta.
  repeat first
    [ apply awaits_ret | apply awaits_throw | apply awaits_query
    | apply awaits_await_write | apply awaits_deref | apply awaits_cast
    | apply awaits_bind; [|intros ?]
    | match goal with
      | |- awaits_its_writes (if ?b then _ else _) => destruct b
      end ].
Qed.

(** The whole-order route does not: it leaves its restock in flight. *)
Lemma increaseQuantity_not_awaited (lines : list CartItem) :
  ~ awaits_its_writes (increaseQuantity lines).
Proof.
  intros H. specialize (H (mkConfig (mkStore [] [] []) [])). discriminate H.
Qed.

End CancellationFacts.

Section PlacementFacts.

Variable castObjectId : string -> option ObjectId.
Variable mailgun_sendEmail : option string -> string -> OrderView -> bool.

(** ** [POST /add] *)

(** C8 (as amended).  The order document is created before the mail
    is sent and nothing removes it afterwards, so it is stored whether
    the mail call returns or throws.  The reply is the success reply
    when the awaited call returns, and the generic 400 error when it
    throws. *)
Theorem place_keeps_order_reply_follows_mail
        (user : User) (newId : ObjectId) (now : Z) (body : AddBody)
        (cid : ObjectId) (cartDoc : Cart) (c : Config)
        (Hcast : castObjectId (add_cartId body) = Some cid)
        (Hcart : Cart_findOne (db c) cid = Some cartDoc) :
  let order := mkOrder newId cid (u_id user) (add_total body) now in
  let (reply, c') := route_add castObjectId mailgun_sendEmail user newId now body c in
  orders (db c') = orders (db c) ++ [order]
  /\ reply =
     if mailgun_sendEmail None "order-confirmation"
          (confirmation_view (Order_create order (db c)) order cartDoc)
     then mkResponse 200
            (Body_placed "Your order has been placed successfully!" newId)
     else generic_error.
Proof.
  unfold route_add. run_route. rewrite Hcast. simpl.
  unfold populate_cart, Cart_findOne at 1. simpl.
  unfold Cart_findOne in Hcart. rewrite Hcart. simpl.
  unfold confirmation_view. simpl.
  destruct (mailgun_sendEmail _ _ _); simpl; auto.
Qed.

End PlacementFacts.

(** * Rounding and the tax scenario *)

Section Rounding.

Lemma round_half_away_opp (x : Q) :
  round_half_away (- x) = - round_half_away x.
Proof.
  unfold round_half_away. destruct x as [n d]. simpl.
  rewrite Z.sgn_opp, Z.abs_opp. lia.
Qed.

(** On a non-negative number the result is a nearest integer, and a
    tie goes up, that is away from zero. *)
Lemma round_half_away_nearest (n : Z) (d : positive) :
  0 <= n ->
  let r := round_half_away (Qmake n d) in
  2 * n - Zpos d < 2 * Zpos d * r <= 2 * n + Zpos d.
Proof.
  intros Hn. unfold round_half_away. cbn [Qnum Qden].
  rewrite (Z.abs_eq n Hn).
  assert (Hd : 0 < 2 * Zpos d) by lia.
  pose proof (Z.div_mod (2 * n + Zpos d) (2 * Zpos d) ltac:(lia)) as Hdiv.
  pose proof (Z.mod_pos_bound (2 * n + Zpos d) (2 * Zpos d) Hd) as Hmod.
  set (q := (2 * n + Zpos d) / (2 * Zpos d)) in *.
  set (m := (2 * n + Zpos d) mod (2 * Zpos d)) in *.
  destruct (Z.eq_dec n 0) as [Hz | Hne].
  - subst n. assert (q = 0) by (subst q; apply Z.div_small; lia).
    rewrite H. simpl. lia.
  - replace (Z.sgn n) with 1 by (symmetry; apply Z.sgn_pos; lia).
    rewrite Z.mul_1_l. lia.
Qed.

End Rounding.

Import TaxCalculator.

(** C9.  The scenario of the spec: product A, quantity 2, taxable, unit
    price 10.00; product B, quantity 1, not taxable, unit price 5.00;
    rate 10%.  The calculator returns tax base 20.00, tax amount 2.00
    and grand total 27.00.  The amounts it returns are roundings of the
    unrounded sums, and the rounding sends a tie away from zero in both
    directions. *)
Theorem tax_scenario :
  let lines := [mkLine 2 10 true; mkLine 1 5 false] in
  let totals := calculate (10 # 100) lines in
  (taxBase totals == 20 /\ taxAmount totals == 2 /\ grandTotal totals == 27)%Q
  /\ totals = mkTotals (2000 # 100) (200 # 100) (2700 # 100)
  /\ totals = mkTotals (toFixed2 (tax_base lines))
                       (toFixed2 (tax_amount (10 # 100) lines))
                       (toFixed2 (grand_total (10 # 100) lines))
  /\ (toFixed2 (5 # 1000) == 1 # 100 /\ toFixed2 (- (5 # 1000)) == - (1 # 100))%Q.
Proof.
  cbv zeta. repeat split; vm_compute; reflexivity.
Qed.

(** * The theorems on the sample shop *)

Import Sample.

Lemma get_access_and_not_found_witness :
  hexObjectId order1 = Some order1
  /\ route_get hexObjectId noTax root order1 (at_rest shop)
     = (mkResponse 200 (Body_order (order_view shop theOrder theCart)), at_rest shop)
  /\ route_get hexObjectId noTax bob order1 (at_rest shop)
     = (not_found order1, at_rest shop)
  /\ route_get hexObjectId noTax bob noSuchOrder (at_rest shop)
     = (not_found noSuchOrder, at_rest shop).
Proof.
  split; [reflexivity|]. split; [|split].
  - destruct (get_access_and_not_found hexObjectId noTax root order1 order1
                (at_rest shop) eq_refl) as (H & _).
    apply (H theOrder theCart); reflexivity.
  - destruct (get_access_and_not_found hexObjectId noTax bob order1 order1
                (at_rest shop) eq_refl) as (_ & H & _).
    apply H; [discriminate|].
    intros o [<- | []] _. discriminate.
  - destruct (get_access_and_not_found hexObjectId noTax bob noSuchOrder noSuchOrder
                (at_rest shop) eq_refl) as (_ & _ & H & _).
    apply H. reflexivity.
Defined.

Lemma cancel_by_any_requester_witness :
  o_user theOrder <> u_id bob
  /\ u_role bob <> Admin
  /\ fst (route_cancel hexObjectId bob order1 (at_rest shop)) = mkResponse 200 Body_success
  /\ orders (db (snd (route_cancel hexObjectId bob order1 (at_rest shop)))) = []
  /\ carts (db (snd (route_cancel hexObjectId bob order1 (at_rest shop)))) = [].
Proof.
  assert (Hstranger : o_user theOrder <> u_id bob) by discriminate.
  assert (Hrole : u_role bob <> Admin) by discriminate.
  pose proof (cancel_by_any_requester hexObjectId bob order1 order1 theOrder theCart
                (at_rest shop) eq_refl eq_refl eq_refl Hstranger Hrole) as H.
  destruct (route_cancel hexObjectId bob order1 (at_rest shop)) as [reply c'].
  destruct H as (Hreply & Horders & Hcarts & _).
  repeat split; auto; simpl in *.
  - destruct (orders (db c')); [reflexivity | discriminate].
  - destruct (carts (db c')); [reflexivity | discriminate].
Defined.

Lemma cancel_deletes_before_restock_witness :
  let c' := snd (route_cancel hexObjectId alice order1 (at_rest shop)) in
  orders (db c') = []
  /\ carts (db c') = []
  /\ total_stock (db c') = 10
  /\ inflight c' = [restock_of (c_products theCart)]
  /\ total_stock (settle c') = 15.
Proof.
  pose proof (cancel_deletes_before_restock hexObjectId alice order1 order1 theOrder
                theCart shop eq_refl eq_refl eq_refl) as H.
  cbv zeta.
  destruct (route_cancel hexObjectId alice order1 (at_rest shop)) as [reply c'].
  destruct H as (_ & Horders & Hcarts & Hproducts & Hflight & _).
  cbn [snd]. unfold settle, total_stock.
  rewrite Horders, Hcarts, Hflight. cbn [fold_left].
  unfold apply_write, restock_of, Product_bulkWrite.
  cbn [map fold_left c_products theCart i_product i_quantity bulk_filter_id
       bulk_inc_quantity Product_updateOne_inc products].
  rewrite Hproducts. repeat split; reflexivity.
Defined.

Lemma order_removed_on_last_cancelled_line_witness :
  exists c1 c2,
    run_items hexObjectId alice
      (map (cancel_item_request order1 cart1) [line2; line1]) (at_rest shop)
    = [(item_cancelled_reply, c1); (order_cancelled_reply alice, c2)]
    /\ order_in_place (db c1) order1 cart1
    /\ order_gone (db c2) order1 cart1.
Proof.
  assert (Hcanon : forall i, In i [line2; line1] -> hexObjectId i = Some i).
  { intros i [<- | [<- | []]]; reflexivity. }
  assert (Hnd_o : NoDup (map o_id (orders (db (at_rest shop))))).
  { repeat constructor. simpl. tauto. }
  assert (Hnd_c : NoDup (map c_id (carts (db (at_rest shop))))).
  { repeat constructor. simpl. tauto. }
  assert (Hnd_i : NoDup (map i_id (c_products theCart))).
  { repeat constructor; simpl; intuition discriminate. }
  assert (Hitems : forall i, In i [line2; line1] ->
                             Cart_findOne_item (db (at_rest shop)) i = Some theCart).
  { intros i [<- | [<- | []]]; reflexivity. }
  assert (Hids : NoDup [line2; line1]).
  { repeat constructor; simpl; intuition discriminate. }
  assert (Hsome : [line2; line1] <> []) by discriminate.
  assert (Hact : forall item, In item (c_products theCart) ->
                   (item_cancelled item = false <-> In (i_id item) [line2; line1])).
  { intros item [<- | [<- | []]]; simpl; split; auto. }
  destruct (order_removed_on_last_cancelled_line hexObjectId alice order1 cart1
              order1 cart1 theOrder theCart [line2; line1] (at_rest shop)
              eq_refl eq_refl Hcanon Hnd_o Hnd_c eq_refl eq_refl eq_refl
              Hnd_i Hitems Hids Hsome Hact)
    as (earlier & cN & Htrace & Hlen & Hearlier & _ & Hgone).
  destruct earlier as [|[r1 c1] [|? ?]]; simpl in Hlen; try discriminate.
  exists c1, cN. inversion Hearlier as [|? ? (Hr1 & _ & Hplace) _]; subst.
  simpl in Hr1. subst r1. repeat split; auto; apply Hplace || apply Hgone.
Defined.

Example first_cancel_of_line1 :
  route_status_item hexObjectId alice (cancelLine line1) (at_rest shop)
  = (item_cancelled_reply, at_rest shopAfterLine1).
Proof. reflexivity. Qed.

Lemma missing_status_cancels_witness :
  route_status_item hexObjectId alice (cancelLine line1) (at_rest shop)
  = route_status_item hexObjectId alice
      (mkItemStatus line1 order1 cart1 (Some CART_ITEM_STATUS.Cancelled)) (at_rest shop)
  /\ Cart_findOne_item
       (after_credit line1 (mkItem line1 productA 2 "Not processed") shop) line1
     = Some cartAfterLine1
  /\ total_stock (db (snd (route_status_item hexObjectId alice (cancelLine line1)
                             (at_rest shop))))
     = 12.
Proof.
  assert (Hprod : Product_findOne (db (at_rest shop)) productA <> None) by discriminate.
  destruct (missing_status_cancels hexObjectId alice (cancelLine line1) (at_rest shop)
              (or_introl eq_refl)) as (Hsame & Heffects).
  destruct (Heffects theCart (mkItem line1 productA 2 "Not processed")
              eq_refl eq_refl eq_refl Hprod) as (_ & Hcart & _ & Hstock).
  split; [exact Hsame | split; [exact Hcart | exact Hstock]].
Defined.

(** C2 (counterexample).  Line 1 is cancelled by a first request; the
    same request sent again finds the line Cancelled and still raises
    the stock, from 12 to 14. *)
Lemma cancelled_line_is_restocked_again :
  let c1 := snd (route_status_item hexObjectId alice (cancelLine line1) (at_rest shop)) in
  let c2 := snd (route_status_item hexObjectId alice (cancelLine line1) c1) in
  Cart_findOne_item (db c1) line1 = Some cartAfterLine1
  /\ find (fun p => id_eqb (i_id p) line1) (c_products cartAfterLine1)
     = Some (mkItem line1 productA 2 CART_ITEM_STATUS.Cancelled)
  /\ total_stock (db c1) = 12
  /\ total_stock (db c2) = 14
  /\ total_stock (db c2) <> total_stock (db c1).
Proof.
  cbv zeta. repeat split; try reflexivity.
  vm_compute. discriminate.
Qed.

Lemma cancel_item_again_restocks_witness :
  item_cancelled (mkItem line1 productA 2 CART_ITEM_STATUS.Cancelled) = true
  /\ total_stock (db (snd (route_status_item hexObjectId alice (cancelLine line1)
                             (at_rest shopAfterLine1))))
     = 12 + 2
  /\ reports_success (fst (route_status_item hexObjectId alice (cancelLine line1)
                             (at_rest shopAfterLine1)))
     = true.
Proof.
  assert (Hprod : Product_findOne (db (at_rest shopAfterLine1)) productA <> None)
    by discriminate.
  pose proof (cancel_item_again_restocks hexObjectId alice (cancelLine line1)
                cart1 order1 cartAfterLine1
                (mkItem line1 productA 2 CART_ITEM_STATUS.Cancelled)
                (at_rest shopAfterLine1)
                eq_refl eq_refl eq_refl eq_refl eq_refl eq_refl eq_refl eq_refl Hprod) as H.
  destruct (route_status_item hexObjectId alice (cancelLine line1)
              (at_rest shopAfterLine1)) as [reply c'].
  destruct H as (Hstock & _ & Hsuccess).
  split; [reflexivity | split; [exact Hstock | exact Hsuccess]].
Defined.

(** C1 (counterexample).  Line 1 (quantity 2) is cancelled by an item
    request, then the whole order is cancelled.  The lines Active when
    they were cancelled carry 2 + 3 = 5 units; the stock rises by 7,
    because the whole-order cancel credits line 1 a second time. *)
Lemma inventory_not_conserved :
  ~ inventory_conserved hexObjectId alice
      [CancelItem (cancelLine line1); CancelOrder order1] (at_rest shop).
Proof.
  unfold inventory_conserved. vm_compute. discriminate.
Qed.

Example lifetime_credit_and_active_quantity :
  let ops := [CancelItem (cancelLine line1); CancelOrder order1] in
  total_stock (settle (run_lifetime hexObjectId alice ops (at_rest shop)))
  - total_stock shop = 7
  /\ active_at_cancellation hexObjectId alice ops (at_rest shop) = 5.
Proof. split; reflexivity. Qed.

Lemma restock_credits_every_addressed_line_witness :
  total_stock (settle (snd (route_cancel hexObjectId alice order1 (at_rest shopAfterLine1))))
  = 12 + 3 + 2
  /\ total_stock (db (snd (route_status_item hexObjectId alice (cancelLine line1)
                             (at_rest shopAfterLine1))))
     = 12 + 2.
Proof.
  assert (Hprods : products_exist shopAfterLine1 (c_products cartAfterLine1)).
  { intros item [<- | [<- | []]]; discriminate. }
  destruct (restock_credits_every_addressed_line hexObjectId alice order1 order1
              theOrder cartAfterLine1 shopAfterLine1 eq_refl eq_refl eq_refl Hprods)
    as (Hwhole & Hitem).
  split.
  - exact Hwhole.
  - apply (Hitem (cancelLine line1)
                 (mkItem line1 productA 2 CART_ITEM_STATUS.Cancelled));
      reflexivity.
Defined.

(** C8 (counterexample).  The mail call throws: the order is stored,
    and the reply is the generic error with status 400, not a success. *)
Lemma rejected_mail_fails_placement :
  let result :=
    route_add hexObjectId mailRejected alice order1 1700000000
              (mkAddBody cart1 50) (at_rest checkout) in
  Order_findOne (db (snd result)) order1 = Some theOrder
  /\ fst result = generic_error
  /\ status (fst result) = 400
  /\ reports_success (fst result) = false.
Proof. cbv zeta. repeat split. Qed.

Lemma place_keeps_order_reply_follows_mail_witness :
  orders (db (snd (route_add hexObjectId mailDelivered alice order1 1700000000
                             (mkAddBody cart1 50) (at_rest checkout))))
  = [theOrder]
  /\ fst (route_add hexObjectId mailDelivered alice order1 1700000000
                    (mkAddBody cart1 50) (at_rest checkout))
     = mkResponse 200 (Body_placed "Your order has been placed successfully!" order1)
  /\ orders (db (snd (route_add hexObjectId mailRejected alice order1 1700000000
                                (mkAddBody cart1 50) (at_rest checkout))))
     = [theOrder]
  /\ fst (route_add hexObjectId mailRejected alice order1 1700000000
                    (mkAddBody cart1 50) (at_rest checkout))
     = generic_error.
Proof.
  pose proof (place_keeps_order_reply_follows_mail hexObjectId mailDelivered alice
                order1 1700000000 (mkAddBody cart1 50) cart1 theCart (at_rest checkout)
                eq_refl eq_refl) as Hok.
  pose proof (place_keeps_order_reply_follows_mail hexObjectId mailRejected alice
                order1 1700000000 (mkAddBody cart1 50) cart1 theCart (at_rest checkout)
                eq_refl eq_refl) as Hko.
  cbv zeta in Hok, Hko.
  destruct (route_add hexObjectId mailDelivered _ _ _ _ _) as [r1 c1].
  destruct (route_add hexObjectId mailRejected _ _ _ _ _) as [r2 c2].
  destruct Hok as (Ho1 & Hr1). destruct Hko as (Ho2 & Hr2).
  split; [exact Ho1 | split; [exact Hr1 | split; [exact Ho2 | exact Hr2]]].
Defined.

(** * Further facts about the routes *)

Ltac case_matches :=
  repeat match goal with
         | |- context [match ?x with _ => _ end] => destruct x eqn:?; simpl
         end.

Section FetchFacts.

Variable castObjectId : string -> option ObjectId.
Variable calculateTaxAmount : OrderView -> OrderView.

(** ** [GET /:orderId] *)

Lemma route_get_config (user : User) (orderId : string) (c : Config) :
  snd (route_get castObjectId calculateTaxAmount user orderId c) = c.
Proof.
  unfold route_get. run_route.
  destruct (castObjectId orderId) as [oid|]; simpl; [|reflexivity].
  destruct (role_eqb (u_role user) Admin); simpl.
  - destruct (Order_findOne (db c) oid) as [o|]; simpl; [|reflexivity].
    destruct (Cart_findOne (db c) (o_cart o)); reflexivity.
  - destruct (Order_findOne_user (db c) oid (u_id user)) as [o|]; simpl; [|reflexivity].
    destruct (Cart_findOne (db c) (o_cart o)); reflexivity.
Qed.

(** X1.  Fetching an order writes nothing: whatever the request and
    whatever the reply, the configuration is the one the request found. *)
Theorem route_get_reads_only (user : User) (orderId : string) (c : Config) :
  snd (route_get castObjectId calculateTaxAmount user orderId c) = c
  /\ db (snd (route_get castObjectId calculateTaxAmount user orderId c)) = db c
  /\ inflight (snd (route_get castObjectId calculateTaxAmount user orderId c)) = inflight c.
Proof. rewrite route_get_config. repeat split. Qed.

Lemma Order_findOne_user_visible (d : Store) (oid uid : ObjectId) (o : Order) :
  Order_findOne_user d oid uid = Some o ->
  In o (orders d) /\ o_id o = oid /\ o_user o = uid.
Proof.
  unfold Order_findOne_user. intros H. apply find_some in H.
  destruct H as (Hin & Hb). apply andb_true_iff in Hb. destruct Hb as (H1 & H2).
  apply id_eqb_eq in H1. apply id_eqb_eq in H2. auto.
Qed.

Lemma Order_findOne_stored (d : Store) (oid : ObjectId) (o : Order) :
  Order_findOne d oid = Some o -> In o (orders d) /\ o_id o = oid.
Proof.
  unfold Order_findOne. intros H. apply find_some in H.
  destruct H as (Hin & Hb). apply id_eqb_eq in Hb. auto.
Qed.

(** X2.  Order data in a reply always belongs to an order the requester
    may see: whenever the body of the reply is an order, it is the view
    of a stored order with the requested identifier whose cart exists,
    and the requester is an Admin or the owner of that order. *)
Theorem route_get_returns_visible_orders_only
        (user : User) (orderId : string) (c : Config) (view : OrderView)
        (Hreply : body (fst (route_get castObjectId calculateTaxAmount user orderId c))
                  = Body_order view) :
  exists oid o cartDoc,
    castObjectId orderId = Some oid
    /\ In o (orders (db c))
    /\ o_id o = oid
    /\ (u_role user = Admin \/ o_user o = u_id user)
    /\ Cart_findOne (db c) (o_cart o) = Some cartDoc
    /\ view = calculateTaxAmount (order_view (db c) o cartDoc).
Proof.
  revert Hreply. unfold route_get. run_route.
  destruct (castObjectId orderId) as [oid|]; simpl; [|discriminate].
  destruct (role_eqb (u_role user) Admin) eqn:Erole; simpl.
  - destruct (Order_findOne (db c) oid) as [o|] eqn:Eo; simpl; [|discriminate].
    destruct (Cart_findOne (db c) (o_cart o)) as [cartDoc|] eqn:Ec; simpl; [|discriminate].
    intros [= <-]. exists oid, o, cartDoc.
    destruct (Order_findOne_stored _ _ _ Eo) as (Hin & Hid).
    repeat split; auto. left. now apply role_eqb_Admin.
  - destruct (Order_findOne_user (db c) oid (u_id user)) as [o|] eqn:Eo; simpl;
      [|discriminate].
    destruct (Cart_findOne (db c) (o_cart o)) as [cartDoc|] eqn:Ec; simpl; [|discriminate].
    intros [= <-]. exists oid, o, cartDoc.
    destruct (Order_findOne_user_visible _ _ _ _ Eo) as (Hin & Hid & Hown).
    repeat split; auto.
Qed.

(** X3.  The status of the reply is 200, 404 or 400, and it is 400, the
    generic error, exactly when the identifier of the request cannot be
    cast: an identifier that names no order gives 404, one that is not
    an identifier gives 400. *)
Theorem route_get_status (user : User) (orderId : string) (c : Config) :
  let reply := fst (route_get castObjectId calculateTaxAmount user orderId c) in
  (status reply = 200 \/ reply = not_found orderId \/ reply = generic_error)
  /\ (reply = generic_error <-> castObjectId orderId = None).
Proof.
  unfold route_get. run_route.
  destruct (castObjectId orderId) as [oid|]; simpl.
  - assert (Hsome : forall r : Response,
               status r <> 400 -> (r = generic_error <-> Some oid = None)).
    { intros r Hr. split; [intros ->; now elim Hr | discriminate]. }
    destruct (role_eqb (u_role user) Admin); simpl.
    + destruct (Order_findOne (db c) oid) as [o|]; simpl.
      * destruct (Cart_findOne (db c) (o_cart o)); simpl; split; auto;
          apply Hsome; discriminate.
      * split; auto. apply Hsome; discriminate.
    + destruct (Order_findOne_user (db c) oid (u_id user)) as [o|]; simpl.
      * destruct (Cart_findOne (db c) (o_cart o)); simpl; split; auto;
          apply Hsome; discriminate.
      * split; auto. apply Hsome; discriminate.
  - split; [auto | tauto].
Qed.

End FetchFacts.

Section MoreCancellationFacts.

Variable castObjectId : string -> option ObjectId.

(** ** [DELETE /cancel/:orderId] *)

Lemma route_cancel_outcomes (user : User) (orderId : string) (c : Config) :
  route_cancel castObjectId user orderId c = (generic_error, c)
  \/ exists oid o cartDoc,
      castObjectId orderId = Some oid
      /\ Order_findOne (db c) oid = Some o
      /\ Cart_findOne (db c) (o_cart o) = Some cartDoc
      /\ route_cancel castObjectId user orderId c
         = (mkResponse 200 Body_success,
            mkConfig (Cart_deleteOne (o_cart o) (Order_deleteOne oid (db c)))
                     (inflight c ++ [restock_of (c_products cartDoc)])).
Proof.
  destruct (castObjectId orderId) as [oid|] eqn:Ecast.
  - destruct (Order_findOne (db c) oid) as [o|] eqn:Eo.
    + destruct (Cart_findOne (db c) (o_cart o)) as [cartDoc|] eqn:Ec.
      * right. exists oid, o, cartDoc. repeat split; auto.
        now apply route_cancel_run.
      * left. unfold route_cancel. run_route. rewrite Ecast, Eo. simpl.
        rewrite Ec. destruct c; reflexivity.
    + left. unfold route_cancel. run_route. rewrite Ecast, Eo. destruct c; reflexivity.
  - left. unfold route_cancel. run_route. rewrite Ecast. destruct c; reflexivity.
Qed.

(** X4.  A whole-order cancel has two outcomes only.  Either it answers
    the generic error and changes nothing (no deletion, no restock
    started), or it found the order and its cart, deleted both, started
    one restock for the lines of that cart and answers success. *)
Theorem route_cancel_all_or_nothing (user : User) (orderId : string) (c : Config) :
  route_cancel castObjectId user orderId c = (generic_error, c)
  \/ exists oid o cartDoc,
      castObjectId orderId = Some oid
      /\ Order_findOne (db c) oid = Some o
      /\ Cart_findOne (db c) (o_cart o) = Some cartDoc
      /\ route_cancel castObjectId user orderId c
         = (mkResponse 200 Body_success,
            mkConfig (Cart_deleteOne (o_cart o) (Order_deleteOne oid (db c)))
                     (inflight c ++ [restock_of (c_products cartDoc)])).
Proof. apply route_cancel_outcomes. Qed.

Lemma find_delete_first_other {A : Type} (key : A -> ObjectId) (k k' : ObjectId)
      (l : list A) :
  k' <> k ->
  find (fun x => id_eqb (key x) k') (delete_first (fun x => id_eqb (key x) k) l)
  = find (fun x => id_eqb (key x) k') l.
Proof.
  intros Hne. induction l as [|a t IH]; simpl; [reflexivity|].
  destruct (id_eqb (key a) k) eqn:E.
  - apply id_eqb_eq in E.
    destruct (id_eqb (key a) k') eqn:E'; [|reflexivity].
    apply id_eqb_eq in E'. congruence.
  - simpl. destruct (id_eqb (key a) k'); [reflexivity | exact IH].
Qed.

(** X5.  Once an order is cancelled, cancelling it again fails: with
    unique order identifiers the second request answers the generic
    error and leaves the configuration as the first request left it, so
    no second restock is started. *)
Theorem cancel_twice_fails_the_second_time
        (user user' : User) (orderId : string) (oid : ObjectId)
        (o : Order) (cartDoc : Cart) (c : Config)
        (Hcast : castObjectId orderId = Some oid)
        (Ho : Order_findOne (db c) oid = Some o)
        (Hc : Cart_findOne (db c) (o_cart o) = Some cartDoc)
        (Hunique : NoDup (map o_id (orders (db c)))) :
  let c1 := snd (route_cancel castObjectId user orderId c) in
  route_cancel castObjectId user' orderId c1 = (generic_error, c1)
  /\ inflight c1 = inflight c ++ [restock_of (c_products cartDoc)].
Proof.
  rewrite (route_cancel_run castObjectId user orderId oid o cartDoc c Hcast Ho Hc).
  cbn [snd]. split; [|reflexivity].
  unfold route_cancel. run_route. rewrite Hcast. simpl.
  unfold Order_findOne. simpl.
  rewrite (find_delete_first_key o_id oid (orders (db c)) Hunique). reflexivity.
Qed.

(** X6.  A whole-order cancel touches one order and one cart: every
    order of another identifier and every cart other than the bound
    one is found after the request exactly as before. *)
Theorem route_cancel_spares_the_others
        (user : User) (orderId : string) (oid : ObjectId)
        (o : Order) (cartDoc : Cart) (c : Config)
        (Hcast : castObjectId orderId = Some oid)
        (Ho : Order_findOne (db c) oid = Some o)
        (Hc : Cart_findOne (db c) (o_cart o) = Some cartDoc) :
  let c1 := snd (route_cancel castObjectId user orderId c) in
  (forall oid', oid' <> oid -> Order_findOne (db c1) oid' = Order_findOne (db c) oid')
  /\ (forall cid', cid' <> o_cart o -> Cart_findOne (db c1) cid' = Cart_findOne (db c) cid')
  /\ (forall oid' uid, oid' <> oid ->
        Order_findOne_user (db c1) oid' uid = Order_findOne_user (db c) oid' uid).
Proof.
  rewrite (route_cancel_run castObjectId user orderId oid o cartDoc c Hcast Ho Hc).
  cbn [snd]. repeat split.
  - intros oid' Hne. unfold Order_findOne. simpl.
    now apply (find_delete_first_other o_id).
  - intros cid' Hne. unfold Cart_findOne. simpl.
    now apply (find_delete_first_other c_id).
  - intros oid' uid Hne. unfold Order_findOne_user. simpl.
    induction (orders (db c)) as [|a t IH]; simpl; [reflexivity|].
    destruct (id_eqb (o_id a) oid) eqn:E.
    + apply id_eqb_eq in E.
      destruct (id_eqb (o_id a) oid') eqn:E'; [|reflexivity].
      apply id_eqb_eq in E'. congruence.
    + simpl. destruct (id_eqb (o_id a) oid' && id_eqb (o_user a) uid);
        [reflexivity | exact IH].
Qed.

End MoreCancellationFacts.

Section ItemStatusFacts.

Variable castObjectId : string -> option ObjectId.

(** ** [PUT /status/item/:itemId] *)

Lemma Cart_findOne_item_after_status
      (iid j : ObjectId) (s : string) (cd : Cart) (d : Store) :
  Cart_findOne_item d iid = Some cd ->
  Cart_findOne_item d j = Some cd ->
  Cart_findOne_item (Cart_updateOne_status iid s d) j = Some (set_item_status iid s cd).
Proof.
  intros Hitem Hj. unfold Cart_findOne_item, Cart_updateOne_status. simpl.
  apply find_update_first; auto.
  intros y. apply has_item_set_item_status.
Qed.

Lemma route_status_item_other_run
      (user : User) (req : ItemStatusRequest) (iid : ObjectId) (cd : Cart) (c : Config) :
  castObjectId (req_itemId req) = Some iid ->
  Cart_findOne_item (db c) iid = Some cd ->
  requested_status req <> CART_ITEM_STATUS.Cancelled ->
  route_status_item castObjectId user req c
  = (status_updated_reply,
     mkConfig (Cart_updateOne_status iid (requested_status req) (db c)) (inflight c)).
Proof.
  intros Hcast Hfound Hother. unfold route_status_item. run_route.
  rewrite Hcast, Hfound. simpl. fold (requested_status req).
  apply String.eqb_neq in Hother. rewrite Hother. reflexivity.
Qed.

(** X7.  A request that names a status other than Cancelled only
    writes that status on the addressed line: the reply is "status
    updated", the line of the stored cart carries the new status, and
    products, stock, orders and the writes in flight are untouched.
    The order is kept whatever the statuses of its lines. *)
Theorem status_other_than_cancelled_only_writes_status
        (user : User) (req : ItemStatusRequest) (iid : ObjectId)
        (cd : Cart) (line : CartItem) (c : Config)
        (Hcast : castObjectId (req_itemId req) = Some iid)
        (Hfound : Cart_findOne_item (db c) iid = Some cd)
        (Hline : find (fun p => id_eqb (i_id p) iid) (c_products cd) = Some line)
        (Hother : requested_status req <> CART_ITEM_STATUS.Cancelled) :
  let (reply, c') := route_status_item castObjectId user req c in
  let written := set_item_status iid (requested_status req) cd in
  reply = status_updated_reply
  /\ Cart_findOne_item (db c') iid = Some written
  /\ find (fun p => id_eqb (i_id p) iid) (c_products written)
     = Some (set_status (requested_status req) line)
  /\ products (db c') = products (db c)
  /\ orders (db c') = orders (db c)
  /\ map c_id (carts (db c')) = map c_id (carts (db c))
  /\ inflight c' = inflight c.
Proof.
  rewrite (route_status_item_other_run user req iid cd c Hcast Hfound Hother).
  cbv zeta. cbn [db inflight]. repeat split.
  - now apply Cart_findOne_item_after_status.
  - cbn [set_item_status c_products]. now apply find_line_after_status.
  - unfold Cart_updateOne_status. cbn [carts]. now apply update_first_map.
Qed.

(** X8.  A request for a line that no cart holds, or whose identifier
    cannot be cast, answers the generic error and changes nothing. *)
Theorem item_not_found_changes_nothing
        (user : User) (req : ItemStatusRequest) (c : Config)
        (Hmissing : castObjectId (req_itemId req) = None
                    \/ exists iid, castObjectId (req_itemId req) = Some iid
                                   /\ Cart_findOne_item (db c) iid = None) :
  route_status_item castObjectId user req c = (generic_error, c).
Proof.
  unfold route_status_item. run_route.
  destruct Hmissing as [Hcast | (iid & Hcast & Hnone)]; rewrite Hcast; simpl.
  - destruct c; reflexivity.
  - rewrite Hnone. destruct c; reflexivity.
Qed.

(** X9.  An error reply of a cancel request does not mean that nothing
    happened.  When the cart named in the body cannot be read back (its
    identifier does not cast, or no cart has it), the reply is the
    generic error, yet the line is already written as Cancelled and its
    quantity already credited to the stock; order and cart stay. *)
Theorem cancel_item_error_after_commit
        (user : User) (req : ItemStatusRequest)
        (cd : Cart) (line : CartItem) (c : Config)
        (Hstatus : requested_status req = CART_ITEM_STATUS.Cancelled)
        (Hcast : castObjectId (req_itemId req) = Some (req_itemId req))
        (Hfound : Cart_findOne_item (db c) (req_itemId req) = Some cd)
        (Hline : find (fun p => String.eqb (i_id p) (req_itemId req)) (c_products cd)
                 = Some line)
        (Hprod : Product_findOne (db c) (i_product line) <> None)
        (Hcart : castObjectId (req_cartId req) = None
                 \/ exists cid,
                     castObjectId (req_cartId req) = Some cid
                     /\ Cart_findOne (db c) cid = None) :
  let (reply, c') := route_status_item castObjectId user req c in
  reply = generic_error
  /\ db c' = after_credit (req_itemId req) line (db c)
  /\ Cart_findOne_item (db c') (req_itemId req)
     = Some (set_item_status (req_itemId req) CART_ITEM_STATUS.Cancelled cd)
  /\ total_stock (db c') = total_stock (db c) + i_quantity line
  /\ orders (db c') = orders (db c).
Proof.
  rewrite (route_status_item_cancel_run castObjectId user req _ cd line c
             Hcast Hfound Hline Hstatus).
  cbv zeta.
  assert (Hafter : Cart_findOne_item (after_credit (req_itemId req) line (db c))
                     (req_itemId req)
                   = Some (set_item_status (req_itemId req) CART_ITEM_STATUS.Cancelled cd))
    by now apply Cart_findOne_item_after_credit.
  pose proof (total_stock_after_credit (req_itemId req) line (db c) Hprod) as Hstock.
  destruct Hcart as [Hbad | (cid & Hcid & Hnone)].
  - rewrite Hbad. cbn [db]. repeat split; assumption.
  - rewrite Hcid.
    assert (Hgone : Cart_findOne (after_credit (req_itemId req) line (db c)) cid = None).
    { unfold Cart_findOne in *. rewrite carts_after_credit.
      rewrite find_none_iff in Hnone. apply find_none_iff.
      intros x Hx.
      assert (Hids : In (c_id x) (map c_id (carts (db c)))).
      { rewrite <- (update_first_map c_id (has_item (req_itemId req))
                      (set_item_status (req_itemId req) CART_ITEM_STATUS.Cancelled)
                      (carts (db c))) by reflexivity.
        now apply in_map. }
      apply in_map_iff in Hids. destruct Hids as (y & Hy & Hin).
      rewrite <- Hy. now apply Hnone. }
    rewrite Hgone. cbn [db]. repeat split; assumption.
Qed.

Lemma find_update_first_untouched {A : Type} (f h : A -> bool) (g : A -> A)
      (l : list A) (x : A) :
  find f l = Some x -> h x = false -> (forall y, h (g y) = h y) ->
  find h (update_first f g l) = find h l.
Proof.
  intros Hf Hx Hg. induction l as [|a t IH]; simpl in *; [reflexivity|].
  destruct (f a) eqn:Efa.
  - injection Hf as ->. simpl. now rewrite Hg, Hx.
  - simpl. destruct (h a); [reflexivity | now apply IH].
Qed.

Lemma find_delete_first_keep {A : Type} (f p : A -> bool) (l : list A) (x : A) :
  find f l = Some x -> p x = false ->
  find f (delete_first p l) = Some x.
Proof.
  intros Hf Hp. induction l as [|a t IH]; simpl in *; [discriminate|].
  destruct (p a) eqn:Epa.
  - destruct (f a) eqn:Efa; [|exact Hf]. injection Hf as ->. congruence.
  - simpl. destruct (f a); [exact Hf | now apply IH].
Qed.

(** X10.  The decision to delete is taken on the cart and the order
    named in the body, not on the cart that holds the line.  When the
    body names another cart whose lines are all cancelled (an empty
    cart for one), the request deletes that cart and the named order
    and answers [orderCancelled], while the cart of the line stays,
    with the line cancelled and credited. *)
Theorem cancel_item_deletes_the_cart_named_in_the_body
        (user : User) (req : ItemStatusRequest) (cid oid : ObjectId)
        (cd other : Cart) (line : CartItem) (c : Config)
        (Hstatus : requested_status req = CART_ITEM_STATUS.Cancelled)
        (Hcast : castObjectId (req_itemId req) = Some (req_itemId req))
        (Hfound : Cart_findOne_item (db c) (req_itemId req) = Some cd)
        (Hline : find (fun p => String.eqb (i_id p) (req_itemId req)) (c_products cd)
                 = Some line)
        (Hcart : castObjectId (req_cartId req) = Some cid)
        (Horder : castObjectId (req_orderId req) = Some oid)
        (Hother : Cart_findOne (db c) cid = Some other)
        (Hdiff : c_id cd <> cid)
        (Hall : forallb item_cancelled (c_products other) = true) :
  let (reply, c') := route_status_item castObjectId user req c in
  reply = order_cancelled_reply user
  /\ db c' = Cart_deleteOne cid (Order_deleteOne oid (after_credit (req_itemId req) line (db c)))
  /\ orders (db c') = delete_first (fun o => id_eqb (o_id o) oid) (orders (db c))
  /\ Cart_findOne_item (db c') (req_itemId req)
     = Some (set_item_status (req_itemId req) CART_ITEM_STATUS.Cancelled cd).
Proof.
  rewrite (route_status_item_cancel_run castObjectId user req _ cd line c
             Hcast Hfound Hline Hstatus).
  cbv zeta. rewrite Hcart.
  assert (Hsame : Cart_findOne (after_credit (req_itemId req) line (db c)) cid = Some other).
  { unfold Cart_findOne in *. rewrite carts_after_credit.
    rewrite (find_update_first_untouched _ _ _ _ cd Hfound); auto.
    now apply id_eqb_neq. }
  rewrite Hsame, Hall, Horder. cbn [db]. repeat split.
  unfold Cart_findOne_item. cbn [carts Cart_deleteOne Order_deleteOne].
  apply find_delete_first_keep.
  - now apply (Cart_findOne_item_after_credit (req_itemId req) (req_itemId req) line cd).
  - cbn [set_item_status c_id]. now apply id_eqb_neq.
Qed.

(** X11.  The line to credit is looked up by comparing the text of each
    line identifier with the raw parameter.  When the parameter casts
    to the identifier of a stored line but is not its text (other
    letter case, say), a cancel request writes the status Cancelled and
    then fails: the reply is the generic error and the stock is not
    credited. *)
Theorem cancel_item_raw_identifier_mismatch
        (user : User) (req : ItemStatusRequest) (iid : ObjectId)
        (cd : Cart) (c : Config)
        (Hstatus : requested_status req = CART_ITEM_STATUS.Cancelled)
        (Hcast : castObjectId (req_itemId req) = Some iid)
        (Hfound : Cart_findOne_item (db c) iid = Some cd)
        (Hraw : forall p, In p (c_products cd) -> i_id p <> req_itemId req) :
  let (reply, c') := route_status_item castObjectId user req c in
  reply = generic_error
  /\ db c' = Cart_updateOne_status iid CART_ITEM_STATUS.Cancelled (db c)
  /\ Cart_findOne_item (db c') iid
     = Some (set_item_status iid CART_ITEM_STATUS.Cancelled cd)
  /\ products (db c') = products (db c)
  /\ orders (db c') = orders (db c).
Proof.
  assert (Hnone : find (fun p => String.eqb (i_id p) (req_itemId req)) (c_products cd)
                  = None).
  { apply find_none_iff. intros p Hp. apply String.eqb_neq. now apply Hraw. }
  unfold route_status_item. run_route. rewrite Hcast, Hfound. simpl.
  fold (requested_status req). rewrite Hstatus, Hnone. simpl.
  repeat split. now apply Cart_findOne_item_after_status.
Qed.

End ItemStatusFacts.

Section MorePlacementFacts.

Variable castObjectId : string -> option ObjectId.
Variable calculateTaxAmount : OrderView -> OrderView.
Variable mailgun_sendEmail : option string -> string -> OrderView -> bool.

(** ** [POST /add] *)

Lemma route_add_config
      (user : User) (newId : ObjectId) (now : Z) (body : AddBody)
      (cid : ObjectId) (cartDoc : Cart) (c : Config) :
  castObjectId (add_cartId body) = Some cid ->
  Cart_findOne (db c) cid = Some cartDoc ->
  snd (route_add castObjectId mailgun_sendEmail user newId now body c)
  = mkConfig (Order_create (mkOrder newId cid (u_id user) (add_total body) now) (db c))
             (inflight c).
Proof.
  intros Hcast Hcart. unfold route_add. run_route. rewrite Hcast. simpl.
  unfold populate_cart, Cart_findOne at 1. simpl.
  unfold Cart_findOne in Hcart. rewrite Hcart. simpl.
  destruct (mailgun_sendEmail _ _ _); reflexivity.
Qed.

(** X12.  Placement is not atomic.  When the cart id of the body does
    not cast, nothing is stored.  When it casts but names no cart, the
    order document is stored all the same, bound to the missing cart,
    and the reply is the generic error; no mail is attempted. *)
Theorem place_with_missing_cart_stores_the_order
        (user : User) (newId : ObjectId) (now : Z) (body : AddBody) (c : Config) :
  (castObjectId (add_cartId body) = None ->
   route_add castObjectId mailgun_sendEmail user newId now body c = (generic_error, c))
  /\ (forall cid,
        castObjectId (add_cartId body) = Some cid ->
        Cart_findOne (db c) cid = None ->
        route_add castObjectId mailgun_sendEmail user newId now body c
        = (generic_error,
           mkConfig (Order_create (mkOrder newId cid (u_id user) (add_total body) now)
                                  (db c))
                    (inflight c))).
Proof.
  split.
  - intros Hcast. unfold route_add. run_route. rewrite Hcast. destruct c; reflexivity.
  - intros cid Hcast Hnone. unfold route_add. run_route. rewrite Hcast. simpl.
    unfold populate_cart, Cart_findOne at 1. simpl.
    unfold Cart_findOne in Hnone. rewrite Hnone. reflexivity.
Qed.

Lemma find_app_fresh {A : Type} (f : A -> bool) (l : list A) (x : A) :
  (forall y, In y l -> f y = false) -> f x = true ->
  find f (l ++ [x]) = Some x.
Proof.
  intros Hl Hx. induction l as [|a t IH]; simpl.
  - now rewrite Hx.
  - rewrite (Hl a (or_introl eq_refl)). apply IH. intros y Hy. apply Hl. now right.
Qed.

Lemma delete_first_app_fresh {A : Type} (f : A -> bool) (l : list A) (x : A) :
  (forall y, In y l -> f y = false) -> f x = true ->
  delete_first f (l ++ [x]) = l.
Proof.
  intros Hl Hx. induction l as [|a t IH]; simpl.
  - now rewrite Hx.
  - rewrite (Hl a (or_introl eq_refl)). f_equal. apply IH. intros y Hy. apply Hl. now right.
Qed.

(** X13.  An order that was placed can be fetched: when the new
    identifier is not yet in use, [GET /:orderId] with that identifier,
    sent by the buyer or by an Admin, answers 200 with the view of the
    order just stored, whether or not the confirmation mail went out. *)
Theorem place_then_get
        (user requester : User) (newId : ObjectId) (idText : string) (now : Z)
        (body : AddBody) (cid : ObjectId) (cartDoc : Cart) (c : Config)
        (Hcast : castObjectId (add_cartId body) = Some cid)
        (Hcart : Cart_findOne (db c) cid = Some cartDoc)
        (Hfresh : forall o, In o (orders (db c)) -> o_id o <> newId)
        (Hid : castObjectId idText = Some newId)
        (Hmay : u_role requester = Admin \/ u_id requester = u_id user) :
  let order := mkOrder newId cid (u_id user) (add_total body) now in
  let c1 := snd (route_add castObjectId mailgun_sendEmail user newId now body c) in
  route_get castObjectId calculateTaxAmount requester idText c1
  = (mkResponse 200 (Body_order (calculateTaxAmount (order_view (db c1) order cartDoc))),
     c1).
Proof.
  cbv zeta. rewrite (route_add_config user newId now body cid cartDoc c Hcast Hcart).
  set (order := mkOrder newId cid (u_id user) (add_total body) now).
  apply route_get_found with (oid := newId); auto.
  - destruct (role_eqb (u_role requester) Admin) eqn:Erole.
    + unfold Order_findOne. cbn [db orders Order_create].
      apply find_app_fresh; [|apply id_eqb_refl].
      intros y Hy. apply id_eqb_neq. now apply Hfresh.
    + destruct Hmay as [Hadm | Hown];
        [apply role_eqb_Admin in Hadm; congruence|].
      unfold Order_findOne_user. cbn [db orders Order_create].
      apply find_app_fresh.
      * intros y Hy. apply andb_false_iff. left. apply id_eqb_neq. now apply Hfresh.
      * cbn [order o_id o_user]. rewrite Hown, !id_eqb_refl. reflexivity.
Qed.

(** X14.  Placing an order and cancelling it gives the order collection
    back as it was: the cancel finds the new order and its cart,
    answers success, removes exactly the order that was added, removes
    the cart and starts the restock of the lines of that cart. *)
Theorem place_then_cancel
        (user canceller : User) (newId : ObjectId) (idText : string) (now : Z)
        (body : AddBody) (cid : ObjectId) (cartDoc : Cart) (c : Config)
        (Hcast : castObjectId (add_cartId body) = Some cid)
        (Hcart : Cart_findOne (db c) cid = Some cartDoc)
        (Hfresh : forall o, In o (orders (db c)) -> o_id o <> newId)
        (Hid : castObjectId idText = Some newId) :
  let c1 := snd (route_add castObjectId mailgun_sendEmail user newId now body c) in
  let (reply, c2) := route_cancel castObjectId canceller idText c1 in
  reply = mkResponse 200 Body_success
  /\ orders (db c2) = orders (db c)
  /\ carts (db c2) = delete_first (fun x => id_eqb (c_id x) cid) (carts (db c))
  /\ products (db c2) = products (db c)
  /\ inflight c2 = inflight c ++ [restock_of (c_products cartDoc)].
Proof.
  cbv zeta. rewrite (route_add_config user newId now body cid cartDoc c Hcast Hcart).
  set (order := mkOrder newId cid (u_id user) (add_total body) now).
  assert (Hfound : Order_findOne (Order_create order (db c)) newId = Some order).
  { unfold Order_findOne. cbn [orders Order_create].
    apply find_app_fresh; [|apply id_eqb_refl].
    intros y Hy. apply id_eqb_neq. now apply Hfresh. }
  rewrite (route_cancel_run castObjectId canceller idText newId order cartDoc
             (mkConfig (Order_create order (db c)) (inflight c)) Hid Hfound Hcart).
  cbn [db inflight orders carts products Cart_deleteOne Order_deleteOne Order_create o_cart
       order].
  repeat split.
  apply delete_first_app_fresh; [|apply id_eqb_refl].
  intros y Hy. apply id_eqb_neq. now apply Hfresh.
Qed.

End MorePlacementFacts.

Section Invariants.

Variable castObjectId : string -> option ObjectId.
Variable calculateTaxAmount : OrderView -> OrderView.
Variable mailgun_sendEmail : option string -> string -> OrderView -> bool.

(** ** What an item request can leave behind *)

(** Every run of the item route ends in one of four databases: the one
    it found; that one with the status written; with the status
    Cancelled written and the line credited; or the latter less one
    order and one cart. *)
Lemma route_status_item_outcomes (user : User) (req : ItemStatusRequest) (c : Config) :
  let c' := snd (route_status_item castObjectId user req c) in
  db c' = db c
  \/ exists iid cd,
      Cart_findOne_item (db c) iid = Some cd
      /\ (db c' = Cart_updateOne_status iid (requested_status req) (db c)
          \/ exists line,
              In line (c_products cd)
              /\ (db c' = after_credit iid line (db c)
                  \/ exists cid oid,
                      db c' = Cart_deleteOne cid
                                (Order_deleteOne oid (after_credit iid line (db c))))).
Proof.
  unfold route_status_item. run_route. fold (requested_status req).
  destruct (castObjectId (req_itemId req)) as [iid|]; simpl; [|now left].
  destruct (Cart_findOne_item (db c) iid) as [cd|] eqn:Efound; simpl; [|now left].
  right. exists iid, cd. split; [exact Efound|].
  destruct (String.eqb (requested_status req) CART_ITEM_STATUS.Cancelled) eqn:Estatus;
    simpl; [|now left].
  apply String.eqb_eq in Estatus. rewrite Estatus.
  destruct (find _ (c_products cd)) as [line|] eqn:Eline; simpl; [|now left].
  right. exists line. split; [apply find_some in Eline; apply Eline|].
  fold (after_credit iid line (db c)).
  destruct (castObjectId (req_cartId req)) as [cid|]; simpl; [|now left].
  match goal with
  | |- context [Cart_findOne ?d cid] => destruct (Cart_findOne d cid) as [cart|]
  end; simpl; [|now left].
  destruct (Nat.eqb _ _); simpl; [|now left].
  destruct (castObjectId (req_orderId req)) as [oid|]; simpl; [|now left].
  right. now exists cid, oid.
Qed.

(** ** Products *)

Lemma product_cards_inc (pid : ObjectId) (n : Z) (ps : list Product) :
  map product_card (inc_products pid n ps) = map product_card ps.
Proof. unfold inc_products. now apply update_first_map. Qed.

Lemma product_cards_apply_write (w : PendingWrite) (d : Store) :
  map product_card (products (apply_write w d)) = map product_card (products d).
Proof.
  destruct w as [ops]. unfold apply_write, Product_bulkWrite.
  revert d. induction ops as [|op t IH]; intros d; simpl; [reflexivity|].
  rewrite IH. unfold Product_updateOne_inc. simpl. apply product_cards_inc.
Qed.

Lemma product_cards_settle (c : Config) :
  map product_card (products (settle c)) = map product_card (products (db c)).
Proof.
  unfold settle. destruct c as [d ws]. simpl. revert d.
  induction ws as [|w t IH]; intros d; simpl; [reflexivity|].
  rewrite IH. apply product_cards_apply_write.
Qed.

Lemma product_cards_after_credit (iid : ObjectId) (line : CartItem) (d : Store) :
  map product_card (products (after_credit iid line d)) = map product_card (products d).
Proof. unfold after_credit. simpl. apply product_cards_inc. Qed.

(** X15.  The order routes change quantities and nothing else in the
    product collection: after an item request, after a whole-order
    cancel once its restock is applied, and after a placement, the
    products are the same, in the same order, with the same
    identifiers, prices and taxable flags.  This holds for every
    request, failed ones included. *)
Theorem order_routes_change_quantities_only
        (user : User) (c : Config) :
  (forall req,
      map product_card (products (db (snd (route_status_item castObjectId user req c))))
      = map product_card (products (db c)))
  /\ (forall orderId,
      map product_card (products (settle (snd (route_cancel castObjectId user orderId c))))
      = map product_card (products (db c)))
  /\ (forall newId now body,
      products (db (snd (route_add castObjectId mailgun_sendEmail user newId now body c)))
      = products (db c)).
Proof.
  split; [|split].
  - intros req.
    destruct (route_status_item_outcomes user req c)
      as [-> | (iid & cd & _ & [-> | (line & _ & [-> | (cid & oid & ->)])])];
      try reflexivity.
    + apply product_cards_after_credit.
    + cbn [products Cart_deleteOne Order_deleteOne]. apply product_cards_after_credit.
  - intros orderId. rewrite product_cards_settle.
    destruct (route_cancel_outcomes castObjectId user orderId c)
      as [-> | (oid & o & cartDoc & _ & _ & _ & ->)]; reflexivity.
  - intros newId now body. unfold route_add. run_route.
    destruct (castObjectId (add_cartId body)) as [cid|]; simpl; [|reflexivity].
    unfold populate_cart. simpl.
    destruct (Cart_findOne _ cid); simpl; [|reflexivity].
    destruct (mailgun_sendEmail _ _ _); reflexivity.
Qed.

(** ** Identifiers *)

Lemma NoDup_delete_first {A : Type} (key : A -> ObjectId) (p : A -> bool) (l : list A) :
  NoDup (map key l) -> NoDup (map key (delete_first p l)).
Proof.
  induction l as [|a t IH]; simpl; intros Hnd; [constructor|].
  inversion Hnd as [|? ? Hnotin Hnd']; subst.
  destruct (p a); [exact Hnd'|]. simpl. constructor; [|now apply IH].
  intros Hin. apply Hnotin. apply in_map_iff in Hin. destruct Hin as (x & Hx & Hin).
  apply in_map_iff. exists x. split; [exact Hx|]. now apply delete_first_incl in Hin.
Qed.

Lemma identifiers_unique_after_credit (iid : ObjectId) (line : CartItem) (d : Store) :
  identifiers_unique d -> identifiers_unique (after_credit iid line d).
Proof.
  intros (Ho & Hc). split; [exact Ho|].
  rewrite carts_after_credit, update_first_map; auto.
Qed.

Lemma identifiers_unique_delete (cid oid : ObjectId) (d : Store) :
  identifiers_unique d -> identifiers_unique (Cart_deleteOne cid (Order_deleteOne oid d)).
Proof.
  intros (Ho & Hc). split; simpl.
  - now apply NoDup_delete_first.
  - now apply NoDup_delete_first.
Qed.

(** X16.  The routes keep order and cart identifiers unique.  An item
    request and a whole-order cancel, whatever they are sent, leave a
    database without duplicate identifiers as they found it; so does a
    placement whose new identifier is not in use. *)
Theorem order_routes_keep_identifiers_unique
        (user : User) (c : Config) (Hunique : identifiers_unique (db c)) :
  (forall req,
      identifiers_unique (db (snd (route_status_item castObjectId user req c))))
  /\ (forall orderId,
      identifiers_unique (db (snd (route_cancel castObjectId user orderId c))))
  /\ (forall newId now body,
      (forall o, In o (orders (db c)) -> o_id o <> newId) ->
      identifiers_unique
        (db (snd (route_add castObjectId mailgun_sendEmail user newId now body c)))).
Proof.
  split; [|split].
  - intros req.
    destruct (route_status_item_outcomes user req c)
      as [-> | (iid & cd & _ & [-> | (line & _ & [-> | (cid & oid & ->)])])].
    + exact Hunique.
    + destruct Hunique as (Ho & Hc). split; [exact Ho|].
      unfold Cart_updateOne_status. cbn [carts]. rewrite update_first_map; auto.
    + now apply identifiers_unique_after_credit.
    + apply identifiers_unique_delete. now apply identifiers_unique_after_credit.
  - intros orderId.
    destruct (route_cancel_outcomes castObjectId user orderId c)
      as [-> | (oid & o & cartDoc & _ & _ & _ & ->)].
    + exact Hunique.
    + cbn [snd db]. now apply identifiers_unique_delete.
  - intros newId now body Hfresh. destruct Hunique as (Ho & Hc).
    assert (Hadded : forall cid,
               identifiers_unique
                 (Order_create (mkOrder newId cid (u_id user) (add_total body) now) (db c))).
    { intros cid. split; [|exact Hc]. cbn [orders Order_create].
      rewrite map_app. cbn [map o_id].
      apply NoDup_app; [exact Ho | repeat constructor; simpl; tauto |].
      intros x Hx [<- | []]. apply in_map_iff in Hx. destruct Hx as (y & Hy & Hin).
      now apply (Hfresh y Hin). }
    unfold route_add. run_route.
    destruct (castObjectId (add_cartId body)) as [cid|]; simpl; [|now split].
    unfold populate_cart. simpl.
    destruct (Cart_findOne _ cid); simpl; [|apply Hadded].
    destruct (mailgun_sendEmail _ _ _); apply Hadded.
Qed.

End Invariants.

Section StockInvariants.

Variable castObjectId : string -> option ObjectId.
Variable ObjectId_isValid : string -> bool.
Variable calculateTaxAmount : OrderView -> OrderView.
Variable mailgun_sendEmail : option string -> string -> OrderView -> bool.

(** ** Stock *)







(** ** Writes in flight *)


End StockInvariants.

(** * The listing routes: pages *)

Section SortFacts.
Context {A : Type} (key : A -> Z).

Lemma insert_desc_perm (x : A) (l : list A) :
  Permutation (insert_desc key x l) (x :: l).
Proof.
  induction l as [|y t IH]; simpl; [reflexivity|].
  destruct (key y <=? key x); [reflexivity|].
  rewrite IH. apply perm_swap.
Qed.

Lemma sort_desc_perm (l : list A) : Permutation (sort_desc key l) l.
Proof.
  induction l as [|x t IH]; simpl; [reflexivity|].
  rewrite insert_desc_perm. now constructor.
Qed.

Lemma insert_desc_sorted (x : A) (l : list A) :
  StronglySorted (newest_first key) l -> StronglySorted (newest_first key) (insert_desc key x l).
Proof.
  induction l as [|y t IH]; simpl; intros Hs.
  - repeat constructor.
  - inversion Hs as [|? ? Ht Hall]; subst.
    destruct (key y <=? key x) eqn:E.
    + apply Z.leb_le in E. constructor; [exact Hs|].
      constructor; [exact E|].
      eapply Forall_impl; [|exact Hall]. unfold newest_first. intros a Ha. lia.
    + apply Z.leb_gt in E. constructor; [now apply IH|].
      eapply Permutation_Forall; [symmetry; apply insert_desc_perm|].
      constructor; [unfold newest_first; lia | exact Hall].
Qed.

Lemma sort_desc_sorted (l : list A) : StronglySorted (newest_first key) (sort_desc key l).
Proof.
  induction l as [|x t IH]; simpl; [constructor|]. now apply insert_desc_sorted.
Qed.

End SortFacts.

Section PageFacts.
Context {A : Type}.

Lemma firstn_plus (a b : nat) (l : list A) :
  firstn (a + b) l = firstn a l ++ firstn b (skipn a l).
Proof.
  revert l. induction a as [|a IH]; intros l; simpl; [reflexivity|].
  destruct l as [|x t]; simpl.
  - now rewrite firstn_nil.
  - now rewrite IH.
Qed.

(** The first [n] chunks of [limit] elements, one after the other, are
    the first [n * limit] elements. *)
Lemma chunks_concat (limit n : nat) (l : list A) :
  List.concat (map (fun k => firstn limit (skipn (k * limit) l)) (seq 0 n))
  = firstn (n * limit) l.
Proof.
  induction n as [|n IH]; [reflexivity|].
  rewrite seq_S, map_app, List.concat_app, IH. simpl.
  rewrite app_nil_r, <- firstn_plus. f_equal. lia.
Qed.

Lemma paginate_chunk (k : nat) (limit : positive) (l : list A) :
  paginate (Pos.of_nat (S k)) limit l
  = firstn (Pos.to_nat limit) (skipn (k * Pos.to_nat limit) l).
Proof.
  unfold paginate. rewrite Nat2Pos.id by discriminate.
  now replace (S k - 1)%nat with k by lia.
Qed.

Lemma pages_concat (limit : positive) (n : nat) (l : list A) :
  (List.length l <= n * Pos.to_nat limit)%nat ->
  List.concat (map (fun p => paginate (Pos.of_nat p) limit l) (seq 1 n)) = l.
Proof.
  intros Hn. rewrite <- seq_shift, map_map.
  rewrite (map_ext _ (fun k => firstn (Pos.to_nat limit) (skipn (k * Pos.to_nat limit) l)))
    by (intros k; apply paginate_chunk).
  rewrite chunks_concat. now apply firstn_all2.
Qed.

Lemma paginate_length (page limit : positive) (l : list A) :
  (List.length (paginate page limit l) <= Pos.to_nat limit)%nat.
Proof. unfold paginate. apply firstn_le_length. Qed.

Lemma paginate_incl (page limit : positive) (l : list A) (x : A) :
  In x (paginate page limit l) -> In x l.
Proof.
  unfold paginate. intros H.
  rewrite <- (firstn_skipn ((Pos.to_nat page - 1) * Pos.to_nat limit) l).
  apply in_or_app. right.
  rewrite <- (firstn_skipn (Pos.to_nat limit)
                (skipn ((Pos.to_nat page - 1) * Pos.to_nat limit) l)).
  apply in_or_app. now left.
Qed.

Lemma paginate_beyond (page limit : positive) (l : list A) :
  (List.length l <= (Pos.to_nat page - 1) * Pos.to_nat limit)%nat ->
  paginate page limit l = [].
Proof.
  intros H. unfold paginate. rewrite (skipn_all2 l H). apply firstn_nil.
Qed.

End PageFacts.

(** [Math.ceil(count / limit)], in whole numbers. *)
Lemma total_pages_ceiling (count : nat) (limit : positive) :
  let pages := total_pages count limit in
  0 <= pages
  /\ Z.of_nat count <= pages * Zpos limit < Z.of_nat count + Zpos limit.
Proof.
  unfold total_pages, Qceiling, Qfloor, Qopp. cbn [Qnum Qden].
  pose proof (Z.div_mod (- Z.of_nat count) (Zpos limit) ltac:(lia)) as Hdiv.
  pose proof (Z.mod_pos_bound (- Z.of_nat count) (Zpos limit) ltac:(lia)) as Hmod.
  set (q := (- Z.of_nat count) / Zpos limit) in *.
  set (m := (- Z.of_nat count) mod Zpos limit) in *.
  assert (Hq : q <= 0) by (subst q; apply Z.div_le_upper_bound; lia).
  nia.
Qed.

Lemma StronglySorted_skipn {A : Type} (R : A -> A -> Prop) (n : nat) (l : list A) :
  StronglySorted R l -> StronglySorted R (skipn n l).
Proof.
  revert l. induction n as [|n IH]; intros l Hs; simpl; [exact Hs|].
  destruct l as [|x t]; [constructor|]. apply IH. now inversion Hs.
Qed.

Lemma StronglySorted_firstn {A : Type} (R : A -> A -> Prop) (n : nat) (l : list A) :
  StronglySorted R l -> StronglySorted R (firstn n l).
Proof.
  revert l. induction n as [|n IH]; intros l Hs; simpl; [constructor|].
  destruct l as [|x t]; [constructor|].
  inversion Hs as [|? ? Ht Hall]; subst. constructor; [now apply IH|].
  apply Forall_forall. intros y Hy. rewrite Forall_forall in Hall. apply Hall.
  rewrite <- (firstn_skipn n t). apply in_or_app. now left.
Qed.


Section ListingFacts.

Variable formatOrders : list PopulatedOrder -> list OrderView.

Lemma route_me_run (user : User) (q : PageQuery) (c : Config) :
  route_me formatOrders user q c
  = (page_reply formatOrders (owned_by user) (page_of q) (limit_of q) (db c), c).
Proof. destruct c; reflexivity. Qed.


Lemma Order_find_page_matches (matches : Order -> bool) (page limit : positive)
      (d : Store) (o : Order) :
  In o (Order_find_page matches page limit d) ->
  In o (orders d) /\ matches o = true.
Proof.
  unfold Order_find_page. intros H. apply paginate_incl in H.
  apply (Permutation_in _ (sort_desc_perm o_created _)) in H.
  now apply filter_In in H.
Qed.

Lemma Order_find_page_sorted (matches : Order -> bool) (page limit : positive) (d : Store) :
  StronglySorted (newest_first o_created) (Order_find_page matches page limit d).
Proof.
  unfold Order_find_page, paginate.
  apply StronglySorted_firstn, StronglySorted_skipn, sort_desc_sorted.
Qed.

(** X19.  [GET /me] shows a requester their own orders only.  Whatever
    the page and the limit, the documents the reply is built from are
    stored orders of the requester, at most [limit] of them (10 when
    the query gives none), newest first; the count is the number of the
    requester's orders; and the request writes nothing. *)
Theorem route_me_lists_own_orders_only (user : User) (q : PageQuery) (c : Config) :
  exists page_orders,
    route_me formatOrders user q c
    = (List_page (formatOrders (map (populate_order (db c)) page_orders))
                 (total_pages (Order_countDocuments (owned_by user) (db c)) (limit_of q))
                 (Zpos (page_of q))
                 (Z.of_nat (Order_countDocuments (owned_by user) (db c))),
       c)
    /\ Forall (fun o => In o (orders (db c)) /\ o_user o = u_id user) page_orders
    /\ (List.length page_orders <= Pos.to_nat (limit_of q))%nat
    /\ StronglySorted (newest_first o_created) page_orders
    /\ Order_countDocuments (owned_by user) (db c)
       = List.length (filter (fun o => id_eqb (o_user o) (u_id user)) (orders (db c))).
Proof.
  exists (Order_find_page (owned_by user) (page_of q) (limit_of q) (db c)).
  split; [apply route_me_run|]. split; [|split; [|split]].
  - apply Forall_forall. intros o Ho.
    apply Order_find_page_matches in Ho. destruct Ho as (Hin & Hown).
    split; [exact Hin|]. now apply id_eqb_eq.
  - apply paginate_length.
  - apply Order_find_page_sorted.
  - reflexivity.
Qed.

Lemma pages_needed (matches : Order -> bool) (limit : positive) (d : Store) :
  (List.length (sort_desc o_created (filter matches (orders d)))
   <= Z.to_nat (total_pages (Order_countDocuments matches d) limit) * Pos.to_nat limit)%nat.
Proof.
  rewrite (Permutation_length (sort_desc_perm o_created _)).
  fold (Order_countDocuments matches d).
  destruct (total_pages_ceiling (Order_countDocuments matches d) limit) as (H0 & H1 & _).
  set (pages := total_pages (Order_countDocuments matches d) limit) in *.
  apply Nat2Z.inj_le. rewrite Nat2Z.inj_mul, Z2Nat.id by exact H0.
  rewrite positive_nat_Z. exact H1.
Qed.

Lemma pages_partition
        (matches : Order -> bool) (limit : positive) (d : Store) :
  let pages := Z.to_nat (total_pages (Order_countDocuments matches d) limit) in
  let listed :=
    List.concat (map (fun p => Order_find_page matches (Pos.of_nat p) limit d)
                     (seq 1 pages)) in
  listed = sort_desc o_created (filter matches (orders d))
  /\ Permutation listed (filter matches (orders d))
  /\ StronglySorted (newest_first o_created) listed.
Proof.
  cbv zeta.
  assert (Hall : List.concat
                   (map (fun p => Order_find_page matches (Pos.of_nat p) limit d)
                        (seq 1 (Z.to_nat (total_pages (Order_countDocuments matches d) limit))))
                 = sort_desc o_created (filter matches (orders d))).
  { unfold Order_find_page. apply pages_concat. apply pages_needed. }
  rewrite Hall. split; [reflexivity|]. split.
  - apply sort_desc_perm.
  - apply sort_desc_sorted.
Qed.

Lemma sorted_order_unique {A : Type} (key : A -> Z) (l1 l2 : list A) :
  NoDup (map key l1) ->
  Permutation l1 l2 ->
  StronglySorted (newest_first key) l1 ->
  StronglySorted (newest_first key) l2 ->
  l1 = l2.
Proof.
  revert l2. induction l1 as [|x t1 IH]; intros l2 Hnd Hperm Hs1 Hs2.
  - apply Permutation_nil in Hperm. now subst.
  - destruct l2 as [|y t2].
    + apply Permutation_sym, Permutation_nil in Hperm. discriminate.
    + inversion Hnd as [|? ? Hnotin Hnd']; subst.
      inversion Hs1 as [|? ? Hs1' Hall1]; subst.
      inversion Hs2 as [|? ? Hs2' Hall2]; subst.
      rewrite Forall_forall in Hall1, Hall2. unfold newest_first in Hall1, Hall2.
      assert (Hxy : x = y).
      { assert (Hx : In x (y :: t2)) by (apply (Permutation_in _ Hperm); now left).
        assert (Hy : In y (x :: t1))
          by (apply (Permutation_in _ (Permutation_sym Hperm)); now left).
        destruct Hy as [Hy | Hy]; [exact Hy|].
        destruct Hx as [Hx | Hx]; [now symmetry|].
        exfalso. apply Hnotin.
        assert (Hkey : key x = key y).
        { specialize (Hall1 y Hy). specialize (Hall2 x Hx). lia. }
        rewrite Hkey. now apply in_map. }
      subst y. f_equal. apply IH; auto.
      now apply Permutation_cons_inv in Hperm.
Qed.

(** X20.  The pages of a listing partition it when no two matching
    orders have the same date.  The database may answer every page
    query with any newest-first ordering of the matching orders; with
    distinct dates there is one such ordering, so for either route and
    any positive whole limit every page is the page of the model, and
    the pages 1 to [totalPages], one after the other, list every
    matching order once, newest first. *)
Theorem listing_pages_partition_the_orders
        (matches : Order -> bool) (limit : positive) (d : Store)
        (answer : positive -> list Order)
        (Hdistinct : NoDup (map o_created (filter matches (orders d))))
        (Hanswer : forall page,
            Permutation (answer page) (filter matches (orders d))
            /\ StronglySorted (newest_first o_created) (answer page)) :
  let pages := Z.to_nat (total_pages (Order_countDocuments matches d) limit) in
  let listed :=
    List.concat (map (fun p => paginate (Pos.of_nat p) limit (answer (Pos.of_nat p)))
                     (seq 1 pages)) in
  (forall page, paginate page limit (answer page) = Order_find_page matches page limit d)
  /\ Permutation listed (filter matches (orders d))
  /\ NoDup listed
  /\ StronglySorted (newest_first o_created) listed.
Proof.
  cbv zeta.
  assert (Hunique : forall page,
             answer page = sort_desc o_created (filter matches (orders d))).
  { intros page. destruct (Hanswer page) as (Hperm & Hsorted).
    apply (sorted_order_unique o_created); auto.
    - apply (Permutation_NoDup (l := map o_created (filter matches (orders d))));
        [|exact Hdistinct].
      apply Permutation_map. now symmetry.
    - rewrite Hperm. symmetry. apply sort_desc_perm.
    - apply sort_desc_sorted. }
  destruct (pages_partition matches limit d) as (Hall & Hperm & Hsorted).
  cbv zeta in Hall, Hperm, Hsorted.
  assert (Hlisted :
            List.concat
              (map (fun p => paginate (Pos.of_nat p) limit (answer (Pos.of_nat p)))
                   (seq 1 (Z.to_nat (total_pages (Order_countDocuments matches d) limit))))
            = List.concat
                (map (fun p => Order_find_page matches (Pos.of_nat p) limit d)
                     (seq 1 (Z.to_nat (total_pages (Order_countDocuments matches d) limit))))).
  { f_equal. apply map_ext. intros p. unfold Order_find_page. now rewrite Hunique. }
  split; [|split; [|split]].
  - intros page. unfold Order_find_page. now rewrite Hunique.
  - rewrite Hlisted. exact Hperm.
  - rewrite Hlisted. apply (Permutation_NoDup (Permutation_sym Hperm)).
    now apply NoDup_map_inv with (f := o_created).
  - rewrite Hlisted. exact Hsorted.
Qed.

(** X21.  The bounds of a listing.  [totalPages] is the least number of
    pages of [limit] orders that hold [count] orders (zero when nothing
    matches); no page has more than [limit] orders; and every page after
    the last is empty, so its reply is built from no document at all. *)
Theorem listing_page_bounds
        (matches : Order -> bool) (page limit : positive) (d : Store) :
  let count := Z.of_nat (Order_countDocuments matches d) in
  let pages := total_pages (Order_countDocuments matches d) limit in
  (0 <= pages /\ count <= pages * Zpos limit < count + Zpos limit)
  /\ (List.length (Order_find_page matches page limit d) <= Pos.to_nat limit)%nat
  /\ (pages < Zpos page ->
      Order_find_page matches page limit d = []
      /\ page_reply formatOrders matches page limit d = List_page (formatOrders []) pages (Zpos page) count).
Proof.
  cbv zeta.
  pose proof (total_pages_ceiling (Order_countDocuments matches d) limit) as Hceil.
  cbv zeta in Hceil. split; [exact Hceil|]. split; [apply paginate_length|].
  intros Hpage.
  assert (Hempty : Order_find_page matches page limit d = []).
  { unfold Order_find_page. apply paginate_beyond.
    rewrite (Permutation_length (sort_desc_perm o_created _)).
    fold (Order_countDocuments matches d).
    apply Nat2Z.inj_le. rewrite Nat2Z.inj_mul, Nat2Z.inj_sub by lia.
    rewrite !positive_nat_Z. simpl Z.of_nat. nia. }
  split; [exact Hempty|]. unfold page_reply. now rewrite Hempty.
Qed.


End ListingFacts.

(** * The further facts on the sample data *)

Import Market.

Lemma route_get_returns_visible_orders_only_witness :
  exists oid o cartDoc,
    hexObjectId order1 = Some oid
    /\ In o (orders shop)
    /\ o_id o = oid
    /\ (u_role alice = Admin \/ o_user o = u_id alice)
    /\ Cart_findOne shop (o_cart o) = Some cartDoc
    /\ order_view shop theOrder theCart = noTax (order_view shop o cartDoc).
Proof.
  exact (route_get_returns_visible_orders_only hexObjectId noTax alice order1
           (at_rest shop) (order_view shop theOrder theCart) eq_refl).
Defined.

Lemma cancel_twice_fails_the_second_time_witness :
  route_cancel hexObjectId bob order1
    (snd (route_cancel hexObjectId alice order1 (at_rest shop)))
  = (generic_error, snd (route_cancel hexObjectId alice order1 (at_rest shop))).
Proof.
  assert (Hunique : NoDup (map o_id (orders (db (at_rest shop))))).
  { repeat constructor. simpl. tauto. }
  exact (proj1 (cancel_twice_fails_the_second_time hexObjectId alice bob order1 order1
                  theOrder theCart (at_rest shop) eq_refl eq_refl eq_refl Hunique)).
Defined.

Lemma route_cancel_spares_the_others_witness :
  let c1 := snd (route_cancel hexObjectId alice order1 (at_rest market)) in
  Order_findOne (db c1) order2 = Some bobsOrder
  /\ Cart_findOne (db c1) cart2 = Some bobsCart
  /\ Order_findOne (db c1) order1 = None.
Proof.
  destruct (route_cancel_spares_the_others hexObjectId alice order1 order1 theOrder
              theCart (at_rest market) eq_refl eq_refl eq_refl) as (Ho & Hc & _).
  cbv zeta. split; [|split].
  - rewrite (Ho order2); [reflexivity | discriminate].
  - rewrite (Hc cart2); [reflexivity | discriminate].
  - reflexivity.
Defined.

Lemma status_other_than_cancelled_only_writes_status_witness :
  let req := mkItemStatus line1 order1 cart1 (Some "Shipped"%string) in
  let c' := snd (route_status_item hexObjectId alice req (at_rest shop)) in
  fst (route_status_item hexObjectId alice req (at_rest shop)) = status_updated_reply
  /\ Cart_findOne_item (db c') line1
     = Some (set_item_status line1 "Shipped" theCart)
  /\ products (db c') = products shop
  /\ orders (db c') = orders shop.
Proof.
  assert (Hother : requested_status (mkItemStatus line1 order1 cart1 (Some "Shipped"%string))
                   <> CART_ITEM_STATUS.Cancelled) by discriminate.
  pose proof (status_other_than_cancelled_only_writes_status hexObjectId alice
                (mkItemStatus line1 order1 cart1 (Some "Shipped"%string)) line1 theCart
                (mkItem line1 productA 2 "Not processed") (at_rest shop)
                eq_refl eq_refl eq_refl Hother) as H.
  cbv zeta.
  destruct (route_status_item hexObjectId alice _ (at_rest shop)) as [reply c'].
  destruct H as (Hr & Hcart & _ & Hp & Ho & _).
  split; [exact Hr | split; [exact Hcart | split; [exact Hp | exact Ho]]].
Defined.

Lemma item_not_found_changes_nothing_witness :
  route_status_item hexObjectId alice (mkItemStatus noSuchLine order1 cart1 None)
                    (at_rest shop)
  = (generic_error, at_rest shop)
  /\ route_status_item hexObjectId alice (mkItemStatus "line-1" order1 cart1 None)
                       (at_rest shop)
     = (generic_error, at_rest shop).
Proof.
  split.
  - apply (item_not_found_changes_nothing hexObjectId alice
             (mkItemStatus noSuchLine order1 cart1 None) (at_rest shop)).
    right. exists noSuchLine. split; reflexivity.
  - apply (item_not_found_changes_nothing hexObjectId alice
             (mkItemStatus "line-1" order1 cart1 None) (at_rest shop)).
    left. reflexivity.
Defined.

Lemma cancel_item_error_after_commit_witness :
  let req := mkItemStatus line1 order1 noSuchCart None in
  fst (route_status_item hexObjectId alice req (at_rest shop)) = generic_error
  /\ total_stock (db (snd (route_status_item hexObjectId alice req (at_rest shop))))
     = 10 + 2
  /\ Cart_findOne_item (db (snd (route_status_item hexObjectId alice req (at_rest shop))))
                       line1
     = Some cartAfterLine1.
Proof.
  assert (Hprod : Product_findOne (db (at_rest shop)) productA <> None) by discriminate.
  assert (Hcart : hexObjectId noSuchCart = None
                  \/ exists cid, hexObjectId noSuchCart = Some cid
                                 /\ Cart_findOne (db (at_rest shop)) cid = None).
  { right. exists noSuchCart. split; reflexivity. }
  pose proof (cancel_item_error_after_commit hexObjectId alice
                (mkItemStatus line1 order1 noSuchCart None) theCart
                (mkItem line1 productA 2 "Not processed") (at_rest shop)
                eq_refl eq_refl eq_refl eq_refl Hprod Hcart) as H.
  cbv zeta.
  destruct (route_status_item hexObjectId alice _ (at_rest shop)) as [reply c'].
  destruct H as (Hr & _ & Hfound & Hstock & _).
  split; [exact Hr | split; [exact Hstock | exact Hfound]].
Defined.

Lemma cancel_item_deletes_the_cart_named_in_the_body_witness :
  let req := mkItemStatus line1 order2 cart3 None in
  let c' := snd (route_status_item hexObjectId alice req (at_rest market)) in
  fst (route_status_item hexObjectId alice req (at_rest market))
  = order_cancelled_reply alice
  /\ orders (db c') = [theOrder]
  /\ Cart_findOne_item (db c') line1 = Some cartAfterLine1.
Proof.
  assert (Hdiff : c_id theCart <> cart3) by discriminate.
  pose proof (cancel_item_deletes_the_cart_named_in_the_body hexObjectId alice
                (mkItemStatus line1 order2 cart3 None) cart3 order2 theCart emptyCart
                (mkItem line1 productA 2 "Not processed") (at_rest market)
                eq_refl eq_refl eq_refl eq_refl eq_refl eq_refl eq_refl Hdiff eq_refl) as H.
  cbv zeta.
  destruct (route_status_item hexObjectId alice _ (at_rest market)) as [reply c'].
  destruct H as (Hr & _ & Ho & Hfound).
  split; [exact Hr | split; [exact Ho | exact Hfound]].
Defined.

Lemma cancel_item_raw_identifier_mismatch_witness :
  let req := mkItemStatus lineAB_upper order2 cart2 None in
  let c' := snd (route_status_item hexObjectId bob req (at_rest market)) in
  hexObjectId lineAB_upper = Some lineAB
  /\ fst (route_status_item hexObjectId bob req (at_rest market)) = generic_error
  /\ Cart_findOne_item (db c') lineAB
     = Some (mkCart cart2 [ mkItem lineAB productB 4 CART_ITEM_STATUS.Cancelled ])
  /\ products (db c') = products market.
Proof.
  assert (Hraw : forall p, In p (c_products bobsCart) -> i_id p <> lineAB_upper).
  { intros p [<- | []]. discriminate. }
  pose proof (cancel_item_raw_identifier_mismatch hexObjectId bob
                (mkItemStatus lineAB_upper order2 cart2 None) lineAB bobsCart
                (at_rest market) eq_refl eq_refl eq_refl Hraw) as H.
  cbv zeta.
  destruct (route_status_item hexObjectId bob _ (at_rest market)) as [reply c'].
  destruct H as (Hr & _ & Hfound & Hp & _).
  split; [reflexivity | split; [exact Hr | split; [exact Hfound | exact Hp]]].
Defined.

Lemma place_with_missing_cart_stores_the_order_witness :
  route_add hexObjectId mailDelivered alice order2 1700000900
            (mkAddBody "my cart" 5) (at_rest shop)
  = (generic_error, at_rest shop)
  /\ route_add hexObjectId mailDelivered alice order2 1700000900
               (mkAddBody noSuchCart 5) (at_rest shop)
     = (generic_error,
        at_rest (mkStore (products shop) (carts shop)
                   [theOrder; mkOrder order2 noSuchCart (u_id alice) 5 1700000900])).
Proof.
  destruct (place_with_missing_cart_stores_the_order hexObjectId mailDelivered alice
              order2 1700000900 (mkAddBody "my cart" 5) (at_rest shop)) as (Hbad & _).
  destruct (place_with_missing_cart_stores_the_order hexObjectId mailDelivered alice
              order2 1700000900 (mkAddBody noSuchCart 5) (at_rest shop)) as (_ & Hgone).
  split.
  - apply Hbad. reflexivity.
  - apply (Hgone noSuchCart); reflexivity.
Defined.

Lemma place_then_get_witness :
  let c1 := snd (route_add hexObjectId mailRejected alice order1 1700000000
                           (mkAddBody cart1 50) (at_rest checkout)) in
  route_get hexObjectId noTax alice order1 c1
  = (mkResponse 200 (Body_order (order_view shop theOrder theCart)), at_rest shop)
  /\ route_get hexObjectId noTax root order1 c1
     = (mkResponse 200 (Body_order (order_view shop theOrder theCart)), at_rest shop).
Proof.
  assert (Hfresh : forall o, In o (orders (db (at_rest checkout))) -> o_id o <> order1).
  { intros o []. }
  split.
  - exact (place_then_get hexObjectId noTax mailRejected alice alice order1 order1
             1700000000 (mkAddBody cart1 50) cart1 theCart (at_rest checkout)
             eq_refl eq_refl Hfresh eq_refl (or_intror eq_refl)).
  - exact (place_then_get hexObjectId noTax mailRejected alice root order1 order1
             1700000000 (mkAddBody cart1 50) cart1 theCart (at_rest checkout)
             eq_refl eq_refl Hfresh eq_refl (or_introl eq_refl)).
Defined.

Lemma place_then_cancel_witness :
  let c1 := snd (route_add hexObjectId mailDelivered alice order1 1700000000
                           (mkAddBody cart1 50) (at_rest checkout)) in
  fst (route_cancel hexObjectId alice order1 c1) = mkResponse 200 Body_success
  /\ orders (db (snd (route_cancel hexObjectId alice order1 c1))) = []
  /\ carts (db (snd (route_cancel hexObjectId alice order1 c1))) = []
  /\ inflight (snd (route_cancel hexObjectId alice order1 c1))
     = [restock_of (c_products theCart)].
Proof.
  assert (Hfresh : forall o, In o (orders (db (at_rest checkout))) -> o_id o <> order1).
  { intros o []. }
  pose proof (place_then_cancel hexObjectId mailDelivered alice alice order1 order1
                1700000000 (mkAddBody cart1 50) cart1 theCart (at_rest checkout)
                eq_refl eq_refl Hfresh eq_refl) as H.
  cbv zeta in H |- *.
  destruct (route_cancel hexObjectId alice order1 _) as [reply c2].
  destruct H as (Hr & Ho & Hc & _ & Hw).
  split; [exact Hr | split; [exact Ho | split; [exact Hc | exact Hw]]].
Defined.

Lemma market_identifiers_unique : identifiers_unique market.
Proof. split; repeat constructor; simpl; intuition discriminate. Qed.

Lemma order_routes_keep_identifiers_unique_witness :
  identifiers_unique
    (db (snd (route_status_item hexObjectId alice (mkItemStatus line1 order2 cart3 None)
                                (at_rest market))))
  /\ identifiers_unique (db (snd (route_cancel hexObjectId bob order1 (at_rest market))))
  /\ identifiers_unique
       (db (snd (route_add hexObjectId mailDelivered alice noSuchOrder 1700000900
                           (mkAddBody cart3 5) (at_rest market)))).
Proof.
  destruct (order_routes_keep_identifiers_unique hexObjectId mailDelivered alice
              (at_rest market) market_identifiers_unique) as (Hitem & _ & Hadd).
  destruct (order_routes_keep_identifiers_unique hexObjectId mailDelivered bob
              (at_rest market) market_identifiers_unique) as (_ & Hcancel & _).
  split; [apply Hitem | split; [apply Hcancel | apply Hadd]].
  intros o [<- | [<- | []]]; discriminate.
Defined.


Lemma listing_page_bounds_witness :
  Order_find_page (owned_by bob) 2 10 market = []
  /\ page_reply bareViews (owned_by bob) 2 10 market = List_page [] 1 2 1.
Proof.
  destruct (listing_page_bounds bareViews (owned_by bob) 2 10 market) as (_ & _ & H).
  apply H. reflexivity.
Defined.


Example listing_of_the_market :
  route_list bareViews alice (mkPageQuery None None) (at_rest market)
  = (List_page (bareViews (map (populate_order market) [bobsOrder; theOrder])) 1 1 2,
     at_rest market)
  /\ route_me bareViews alice (mkPageQuery (Some 1%positive) (Some 1%positive))
              (at_rest market)
     = (List_page (bareViews (map (populate_order market) [theOrder])) 1 1 1,
        at_rest market).
Proof. split; reflexivity. Qed.

(** * The credit of a lifetime *)

Section LifetimeCredit.

Variable castObjectId : string -> option ObjectId.

Lemma product_stored_inc (pid q : ObjectId) (n : Z) (ps : list Product) :
  product_stored (inc_products pid n ps) q = product_stored ps q.
Proof. apply existsb_inc_products. Qed.

Lemma total_stock_updateOne_stored (pid : ObjectId) (n : Z) (d : Store) :
  total_stock (Product_updateOne_inc pid n d)
  = total_stock d + (if product_stored (products d) pid then n else 0).
Proof. unfold total_stock, Product_updateOne_inc. cbn [products]. apply total_stock_inc. Qed.

Lemma write_gain_ext (ps ps' : list Product) (w : PendingWrite) :
  (forall q, product_stored ps q = product_stored ps' q) ->
  write_gain ps w = write_gain ps' w.
Proof.
  intros H. destruct w as [ops]. simpl.
  induction ops as [|op t IH]; simpl; [reflexivity|]. now rewrite H, IH.
Qed.

Lemma pending_gain_ext (ps ps' : list Product) (ws : list PendingWrite) :
  (forall q, product_stored ps q = product_stored ps' q) ->
  pending_gain ps ws = pending_gain ps' ws.
Proof.
  intros H. induction ws as [|w t IH]; simpl; [reflexivity|].
  now rewrite IH, (write_gain_ext ps ps' w H).
Qed.

Lemma pending_gain_app (ps : list Product) (ws ws' : list PendingWrite) :
  pending_gain ps (ws ++ ws') = pending_gain ps ws + pending_gain ps ws'.
Proof. induction ws as [|w t IH]; simpl; [reflexivity|]. rewrite IH. lia. Qed.

(** A bulk write adds what it carries for the products that are stored,
    and stores or drops no product. *)
Lemma apply_write_total (w : PendingWrite) (d : Store) :
  total_stock (apply_write w d) = total_stock d + write_gain (products d) w
  /\ forall q, product_stored (products (apply_write w d)) q = product_stored (products d) q.
Proof.
  destruct w as [ops]. unfold apply_write, Product_bulkWrite.
  revert d. induction ops as [|op t IH]; intros d.
  - simpl. split; [lia | reflexivity].
  - cbn [fold_left].
    destruct (IH (Product_updateOne_inc (bulk_filter_id op) (bulk_inc_quantity op) d))
      as (Htotal & Hstored).
    assert (Hsame : forall q,
               product_stored
                 (products (Product_updateOne_inc (bulk_filter_id op)
                              (bulk_inc_quantity op) d)) q
               = product_stored (products d) q)
      by (intros q; apply product_stored_inc).
    split.
    + rewrite Htotal, total_stock_updateOne_stored.
      rewrite (write_gain_ext _ (products d) (PendingBulkWrite t) Hsame).
      simpl. lia.
    + intros q. now rewrite Hstored, Hsame.
Qed.

Lemma settle_total (d : Store) (ws : list PendingWrite) :
  total_stock (settle (mkConfig d ws)) = total_stock d + pending_gain (products d) ws.
Proof.
  unfold settle. cbn [db inflight]. revert d.
  induction ws as [|w t IH]; intros d; simpl; [lia|].
  destruct (apply_write_total w d) as (Htotal & Hstored).
  rewrite IH, Htotal, (pending_gain_ext _ (products d) t Hstored). lia.
Qed.

Lemma write_gain_restock (ps : list Product) (lines : list CartItem) :
  write_gain ps (restock_of lines) = creditable_quantity ps lines.
Proof.
  unfold restock_of, creditable_quantity. simpl.
  induction lines as [|line t IH]; simpl; [reflexivity|]. now rewrite IH.
Qed.

(** The products after an item request: those it found, with the
    quantity of the addressed line added to its product. *)
Lemma route_status_item_products (user : User) (req : ItemStatusRequest) (c : Config) :
  let c' := snd (route_status_item castObjectId user req c) in
  inflight c' = inflight c
  /\ products (db c')
     = fold_left (fun ps line => inc_products (i_product line) (i_quantity line) ps)
                 (addressed_lines castObjectId (CancelItem req) (db c))
                 (products (db c)).
Proof.
  cbv zeta. split; [apply route_status_item_awaits|].
  unfold route_status_item, addressed_lines. run_route. fold (requested_status req).
  destruct (castObjectId (req_itemId req)) as [iid|]; simpl; [|reflexivity].
  destruct (Cart_findOne_item (db c) iid) as [cd|]; simpl; [|reflexivity].
  destruct (String.eqb (requested_status req) CART_ITEM_STATUS.Cancelled);
    simpl; [|reflexivity].
  destruct (find _ (c_products cd)) as [line|]; simpl; [|reflexivity].
  destruct (castObjectId (req_cartId req)) as [cid|]; simpl; [|reflexivity].
  match goal with
  | |- context [Cart_findOne ?d cid] => destruct (Cart_findOne d cid) as [cart|]
  end; simpl; [|reflexivity].
  destruct (Nat.eqb _ _); simpl; [|reflexivity].
  destruct (castObjectId (req_orderId req)); reflexivity.
Qed.

Lemma settle_total_same_products (d d' : Store) (ws : list PendingWrite) :
  products d' = products d ->
  total_stock (settle (mkConfig d' ws)) = total_stock (settle (mkConfig d ws)).
Proof.
  intros H. rewrite !settle_total. unfold total_stock. now rewrite H.
Qed.

Lemma item_request_credit (user : User) (req : ItemStatusRequest) (c : Config) :
  total_stock (settle (snd (route_status_item castObjectId user req c)))
  = total_stock (settle c)
    + creditable_quantity (products (db c))
        (addressed_lines castObjectId (CancelItem req) (db c)).
Proof.
  destruct (route_status_item_products user req c) as (Hflight & Hproducts).
  cbv zeta in Hflight, Hproducts.
  destruct (snd (route_status_item castObjectId user req c)) as [d' ws'].
  cbn [db inflight] in Hflight, Hproducts. subst ws'.
  destruct c as [d ws]. cbn [db inflight] in *.
  assert (Hshape : addressed_lines castObjectId (CancelItem req) d = []
                   \/ exists line, addressed_lines castObjectId (CancelItem req) d = [line]).
  { unfold addressed_lines.
    destruct (castObjectId (req_itemId req)); [|now left].
    destruct (Cart_findOne_item d o); [|now left].
    destruct (String.eqb _ _); [|now left].
    destruct (find _ _) as [line|]; [right; now exists line | now left]. }
  destruct Hshape as [Hnone | (line & Hone)].
  - rewrite Hnone in *. simpl in Hproducts. simpl.
    rewrite (settle_total_same_products d d' ws Hproducts). lia.
  - rewrite Hone in *. simpl in Hproducts. simpl.
    rewrite !settle_total.
    assert (Hstock : total_stock d'
                     = total_stock d
                       + (if product_stored (products d) (i_product line)
                          then i_quantity line else 0)).
    { unfold total_stock. rewrite Hproducts. apply total_stock_inc. }
    rewrite Hstock, (pending_gain_ext (products d') (products d) ws).
    + lia.
    + intros q. rewrite Hproducts. apply product_stored_inc.
Qed.

Lemma cancel_order_credit (user : User) (orderId : string) (c : Config) :
  total_stock (settle (snd (route_cancel castObjectId user orderId c)))
  = total_stock (settle c)
    + creditable_quantity (products (db c))
        (addressed_lines castObjectId (CancelOrder orderId) (db c)).
Proof.
  unfold addressed_lines.
  destruct (castObjectId orderId) as [oid|] eqn:Ecast.
  - destruct (Order_findOne (db c) oid) as [o|] eqn:Eo.
    + destruct (Cart_findOne (db c) (o_cart o)) as [cd|] eqn:Ec.
      * rewrite (route_cancel_run castObjectId user orderId oid o cd c Ecast Eo Ec).
        cbn [snd]. destruct c as [d ws]. cbn [db inflight].
        rewrite !settle_total, pending_gain_app. cbn [pending_gain fold_right].
        rewrite write_gain_restock. unfold total_stock.
        cbn [products Cart_deleteOne Order_deleteOne]. lia.
      * unfold route_cancel. run_route. rewrite Ecast, Eo. simpl. rewrite Ec.
        simpl. destruct c; simpl; lia.
    + unfold route_cancel. run_route. rewrite Ecast, Eo. simpl.
      destruct c; simpl; lia.
  - unfold route_cancel. run_route. rewrite Ecast. simpl. destruct c; simpl; lia.
Qed.

Lemma cancellation_credit (user : User) (op : Cancellation) (c : Config) :
  total_stock (settle (run_cancellation castObjectId user op c))
  = total_stock (settle c)
    + creditable_quantity (products (db c)) (addressed_lines castObjectId op (db c)).
Proof.
  destruct op as [req | orderId]; unfold run_cancellation.
  - apply item_request_credit.
  - apply cancel_order_credit.
Qed.

Lemma creditable_quantity_split (d : Store) (lines : list CartItem) :
  products_exist d lines ->
  creditable_quantity (products d) lines
  = lines_quantity (active_lines lines) + lines_quantity (cancelled_lines lines).
Proof.
  intros Hex. rewrite <- lines_quantity_split.
  induction lines as [|line t IH]; simpl; [reflexivity|].
  unfold product_stored.
  rewrite (Product_findOne_existsb d (i_product line) (Hex line (or_introl eq_refl))).
  rewrite IH; [reflexivity|]. intros x Hx. apply Hex. now right.
Qed.

(** C1 (as amended).  Over any lifetime, that is any sequence of item
    cancellations and whole-order cancellations served one after the
    other, the stock rises (once the started restocks are applied) by
    the quantities of the lines the requests address whose product is
    stored, counted request by request and whatever the status of the
    lines.  When the products of the lines a request addresses are
    stored, its credit is the quantity of those lines that are active
    plus the quantity of those that are already cancelled. *)
Theorem lifetime_credit_is_every_addressed_line
        (user : User) (ops : list Cancellation) (c : Config) :
  total_stock (settle (run_lifetime castObjectId user ops c)) - total_stock (settle c)
  = addressed_over castObjectId user ops c
  /\ forall (op : Cancellation) (d : Store),
      products_exist d (addressed_lines castObjectId op d) ->
      creditable_quantity (products d) (addressed_lines castObjectId op d)
      = lines_quantity (active_lines (addressed_lines castObjectId op d))
        + lines_quantity (cancelled_lines (addressed_lines castObjectId op d)).
Proof.
  split.
  - revert c. unfold run_lifetime.
    induction ops as [|op rest IH]; intros c; cbn [fold_left addressed_over]; [lia|].
    specialize (IH (run_cancellation castObjectId user op c)).
    pose proof (cancellation_credit user op c) as Hstep. lia.
  - intros op d Hex. now apply creditable_quantity_split.
Qed.

End LifetimeCredit.

Lemma lifetime_credit_is_every_addressed_line_witness :
  let ops := [CancelItem (cancelLine line1); CancelOrder order1] in
  total_stock (settle (run_lifetime hexObjectId alice ops (at_rest shop)))
  - total_stock shop = 2 + (2 + 3)
  /\ addressed_lines hexObjectId (CancelOrder order1) shopAfterLine1
     = c_products cartAfterLine1
  /\ creditable_quantity (products shopAfterLine1) (c_products cartAfterLine1) = 3 + 2.
Proof.
  destruct (lifetime_credit_is_every_addressed_line hexObjectId alice
              [CancelItem (cancelLine line1); CancelOrder order1] (at_rest shop))
    as (Hlife & Hsplit).
  cbv zeta. split; [exact Hlife|]. split; [reflexivity|].
  apply (Hsplit (CancelOrder order1) shopAfterLine1).
  intros item [<- | [<- | []]]; discriminate.
Defined.

Lemma listing_pages_partition_the_orders_witness :
  let answer := fun _ : positive => [bobsOrder; theOrder] in
  paginate 1 1 (answer 1%positive) = Order_find_page (fun _ => true) 1 1 market
  /\ paginate 2 1 (answer 2%positive) = Order_find_page (fun _ => true) 2 1 market
  /\ Permutation (paginate 1 1 (answer 1%positive) ++ paginate 2 1 (answer 2%positive))
                 (orders market).
Proof.
  assert (Hdistinct : NoDup (map o_created (filter (fun _ => true) (orders market)))).
  { repeat constructor; simpl; intuition discriminate. }
  assert (Hanswer : forall page : positive,
             Permutation [bobsOrder; theOrder] (filter (fun _ => true) (orders market))
             /\ StronglySorted (newest_first o_created) [bobsOrder; theOrder]).
  { intros page. split; [apply perm_swap|].
    repeat constructor. unfold newest_first. simpl. lia. }
  destruct (listing_pages_partition_the_orders (fun _ => true) 1 market
              (fun _ => [bobsOrder; theOrder]) Hdistinct Hanswer)
    as (Hpage & Hperm & _).
  cbv zeta. split; [apply (Hpage 1%positive)|]. split; [apply (Hpage 2%positive)|].
  exact Hperm.
Defined.
